(** * The OpenSlides media service ([src/mediaserver.py])

    A shallow embedding of the two Flask views of the media service,
    [serve] (GET /system/media/get/<id>) and [upload]
    (POST /internal/media/upload), of the error handler
    [handle_view_error] and of the helpers they are built from.

    Conventions of the embedding:
    - a Python [str] is a [string], a Python [bytes] object a [list byte];
    - a Python [dict] with string keys is a [gmap string _];
    - a value produced by [json.loads] is a [json];
    - the module-global [database] is threaded through the views as an
      explicit state: a view is a function from the database to an
      outcome (a returned value or a raised exception) and the database
      afterwards;
    - a generator is represented by the list of the values it yields, or
      by the exception that stops it.
    Functions of the Python standard library and of Flask, as well as the
    modules of the service that are imported by [mediaserver.py]
    ([auth], [config_handling], [database], [exceptions]), are either
    parameters of a section or modelled explicitly; each such definition
    says so. *)

From Stdlib Require Import ZArith String Ascii List Lia.
From Stdlib.Strings Require Import Byte.
From Stdlib.Floats Require Import SpecFloat.
From Stdlib.Numbers Require DecimalString DecimalPos DecimalZ.
From stdpp Require Import gmap strings list fin_maps.

Open Scope string_scope.
Open Scope Z_scope.

(** ** Python strings *)

Module PyStr.

(** [needle in hay] for two Python strings. *)
Fixpoint contains (needle hay : string) : bool :=
  String.prefix needle hay ||
  match hay with
  | EmptyString => false
  | String _ rest => contains needle rest
  end.

(** [c.lower()] on one ASCII character. *)
Definition lower_ascii (c : ascii) : ascii :=
  let n := nat_of_ascii c in
  if ((65 <=? n) && (n <=? 90))%nat then ascii_of_nat (n + 32) else c.

(** [s.lower()] (ASCII range). *)
Fixpoint lower (s : string) : string :=
  match s with
  | EmptyString => EmptyString
  | String c rest => String (lower_ascii c) (lower rest)
  end.

(** [s.encode()]: the bytes of the string. *)
Definition encode (s : string) : list byte := list_byte_of_string s.

End PyStr.

(** ** Python ranges and slices *)

Module PySeq.

(** [list(range(start, stop, step))]; a zero step raises [ValueError]. *)
Definition range (start stop step : Z) : option (list Z) :=
  if step =? 0 then None
  else
    let count :=
      if 0 <? step then
        if start <? stop then (stop - start - 1) / step + 1 else 0
      else
        if stop <? start then (start - stop - 1) / (- step) + 1 else 0 in
    Some (map (fun k => start + Z.of_nat k * step) (seq 0 (Z.to_nat count))).

(** One bound of a slice: negative bounds count from the end, and the
    result is clipped to [0, len]. *)
Definition clip (len i : Z) : Z :=
  let i' := if i <? 0 then i + len else i in
  Z.max 0 (Z.min len i').

(** [source[i:j]] *)
Definition slice {A} (source : list A) (i j : Z) : list A :=
  let len := Z.of_nat (length source) in
  let lo := clip len i in
  let hi := clip len j in
  take (Z.to_nat (hi - lo)) (drop (Z.to_nat lo) source).

End PySeq.

(** ** Chunked delivery ([chunked], nested in [serve]) *)

(** [chunked(size, source)] is a generator; the result is the list of
    chunks it yields, [None] when [range] raises. *)
Definition chunked (size : Z) (source : list byte) : option (list (list byte)) :=
  starts ← PySeq.range 0 (Z.of_nat (length source)) size;
  Some (map (fun i => PySeq.slice source i (i + size)) starts).

(** ** The headers handed to the presenter ([serve], first four lines) *)

(** [dict(items)]: later items overwrite earlier ones. *)
Definition py_dict (items : list (string * string)) : gmap string string :=
  foldl (fun d kv => <[kv.1 := kv.2]> d) ∅ items.

(** The keys of a dictionary, as iterating over it gives them. *)
Definition dict_keys (d : gmap string string) : list string :=
  (map_to_list d).*1.

(** [del_keys = [key for key in presenter_headers if "content" in key]] *)
Definition del_keys (presenter_headers : gmap string string) : list string :=
  List.filter (PyStr.contains "content") (dict_keys presenter_headers).

(** The dictionary that [serve] passes to [check_mediafile_id]. *)
Definition presenter_headers (request_headers : list (string * string))
  : gmap string string :=
  let presenter_headers := py_dict request_headers in
  foldl (fun d key => delete key d) presenter_headers (del_keys presenter_headers).

(** ** Values read from JSON *)

(** What [json.loads] can return: [None], a [bool], an [int], a [float],
    a [str], a [list] or a [dict] (its items, the keys being distinct). *)
#[warnings="-register-all"]
Inductive json : Type :=
| JNull
| JBool (b : bool)
| JInt (n : Z)
| JFloat (f : spec_float)
| JStr (s : string)
| JList (items : list json)
| JDict (items : list (string * json)).

Module PyVal.

(** Lookup in the items of a dictionary. *)
Fixpoint assoc (key : string) (items : list (string * json)) : option json :=
  match items with
  | [] => None
  | (k, v) :: rest => if String.eqb k key then Some v else assoc key rest
  end.

(** [v[key]] for a string key: [KeyError] when the key is missing,
    [TypeError] when [v] is not a dictionary; both are [None]. *)
Definition getitem (v : json) (key : string) : option json :=
  match v with
  | JDict items => assoc key items
  | _ => None
  end.

(** [v.encode()]: only a [str] has the method ([AttributeError]
    otherwise). *)
Definition encode (v : json) : option (list byte) :=
  match v with
  | JStr s => Some (PyStr.encode s)
  | _ => None
  end.

(** [int(f)] for a float: truncation towards zero; [ValueError] on a
    NaN and [OverflowError] on an infinity. *)
Definition int_of_float (f : spec_float) : option Z :=
  match f with
  | S754_zero _ => Some 0
  | S754_infinity _ => None
  | S754_nan => None
  | S754_finite s m e =>
      let a := if 0 <=? e then Z.pos m * 2 ^ e else Z.pos m / 2 ^ (- e) in
      Some (if s then - a else a)
  end.

(** White space for [int] on an ASCII string: tab, line feed, vertical
    tab, form feed, carriage return and the space. *)
Definition is_space (c : ascii) : bool :=
  let n := nat_of_ascii c in
  ((9 <=? n) && (n <=? 13) || (n =? 32))%nat.

Definition digit_of (c : ascii) : option Z :=
  let n := nat_of_ascii c in
  if ((48 <=? n) && (n <=? 57))%nat then Some (Z.of_nat (n - 48)) else None.

Fixpoint lstrip (s : string) : string :=
  match s with
  | String c rest => if is_space c then lstrip rest else s
  | EmptyString => s
  end.

Fixpoint all_space (s : string) : bool :=
  match s with
  | String c rest => is_space c && all_space rest
  | EmptyString => true
  end.

(** What the scanner of a decimal literal has just read. *)
Inductive scanned := Nothing | Digit | Underscore.

(** The digits of a decimal literal: single underscores are allowed
    between digits, white space only after the last digit. *)
Fixpoint int_digits (prev : scanned) (acc : Z) (s : string) : option Z :=
  match s with
  | EmptyString => match prev with Digit => Some acc | _ => None end
  | String c rest =>
      match digit_of c with
      | Some d => int_digits Digit (10 * acc + d) rest
      | None =>
          match prev with
          | Digit =>
              if Ascii.eqb c "_" then int_digits Underscore acc rest
              else if is_space c && all_space rest then Some acc
              else None
          | _ => None
          end
      end
  end.

(** [int(s)] for an ASCII string, base ten; [ValueError] is [None]. *)
Definition int_of_ascii (s : string) : option Z :=
  match lstrip s with
  | String "+" rest => int_digits Nothing 0 rest
  | String "-" rest => Z.opp <$> int_digits Nothing 0 rest
  | s' => int_digits Nothing 0 s'
  end.

Fixpoint is_ascii (s : string) : bool :=
  match s with
  | String c rest => (nat_of_ascii c <? 128)%nat && is_ascii rest
  | EmptyString => true
  end.

Fixpoint count_digits (s : string) : nat :=
  match s with
  | String c rest =>
      (match digit_of c with Some _ => 1 | None => 0 end + count_digits rest)%nat
  | EmptyString => 0
  end.

(** The strings on which [int] is modelled here: ASCII strings of at
    most 640 digits.  On a string with other characters [int] also
    takes the decimal digits and the white space of Unicode, and above
    640 digits it may refuse the string, depending on the version and
    the settings of Python. *)
Definition plain_literal (s : string) : bool :=
  is_ascii s && (count_digits s <=? 640)%nat.

(** [int(s)] for a string, base ten; [ValueError] is [None].  The
    parameter [int_beyond] is [int] on the strings that are not
    modelled here. *)
Definition int_of_str (int_beyond : string -> option Z) (s : string) : option Z :=
  if plain_literal s then int_of_ascii s else int_beyond s.

(** [int(v)]; [TypeError] for [None], lists and dictionaries. *)
Definition int (int_beyond : string -> option Z) (v : json) : option Z :=
  match v with
  | JInt n => Some n
  | JBool b => Some (if b then 1 else 0)
  | JFloat f => int_of_float f
  | JStr s => int_of_str int_beyond s
  | JNull | JList _ | JDict _ => None
  end.

End PyVal.

(** [str(n)] for an integer: its decimal digits, after a minus sign if
    it is negative. *)
Definition str_of_int (n : Z) : string :=
  DecimalString.NilZero.string_of_int (Z.to_int n).

(** ** [repr] of a bytes object, as an f-string formats it *)

Module PyBytes.

Definition squote : ascii := ascii_of_byte x27.
Definition dquote : ascii := ascii_of_byte x22.
Definition backslash : ascii := ascii_of_byte x5c.

Definition hex_digit (n : nat) : ascii :=
  ascii_of_nat (if (n <? 10)%nat then 48 + n else 87 + n).

(** The text of one byte between the quotes. *)
Definition escape (quote : ascii) (b : byte) : string :=
  let c := ascii_of_byte b in
  let n := nat_of_ascii c in
  if Ascii.eqb c quote || Ascii.eqb c backslash then String backslash (String c "")
  else if (n =? 9)%nat then String backslash "t"
  else if (n =? 10)%nat then String backslash "n"
  else if (n =? 13)%nat then String backslash "r"
  else if ((n <? 32) || (127 <=? n))%nat then
    String backslash (String "x" (String (hex_digit (n / 16)) (String (hex_digit (n mod 16)) "")))
  else String c "".

Definition has (c : ascii) (bs : list byte) : bool :=
  existsb (fun b => Ascii.eqb (ascii_of_byte b) c) bs.

(** [repr(bs)]: double quotes are used when the bytes hold a single
    quote and no double quote. *)
Definition repr (bs : list byte) : string :=
  let quote := if has squote bs && negb (has dquote bs) then dquote else squote in
  String "b" (String quote (String.concat "" (map (escape quote) bs) +:+ String quote "")).

(** A printable ASCII byte other than the single quote and the
    backslash. *)
Definition plain (b : byte) : bool :=
  let n := nat_of_ascii (ascii_of_byte b) in
  ((32 <=? n) && (n <? 127) && negb (n =? 39) && negb (n =? 92))%nat.

End PyBytes.

(** ** Exceptions *)

(** Modelled from the spec: [exceptions.py] is not among the sources.  An
    [HttpError] carries a status code and a message; [NotFoundError] is
    the 404 kind and [BadRequestError] the 400 kind. *)
Record HttpError : Type := { status_code : Z; message : string }.

Definition NotFoundError (message : string) : HttpError :=
  {| status_code := 404; message := message |}.

Definition BadRequestError (message : string) : HttpError :=
  {| status_code := 400; message := message |}.

(** What a view can raise: an [HttpError], or any other exception. *)
Inductive exn : Type :=
| HttpExn (error : HttpError)
| OtherExn (description : string).

Inductive outcome (A : Type) : Type :=
| Return (a : A)
| Raise (e : exn).
Arguments Return {A} a.
Arguments Raise {A} e.

(** ** The database *)

(** The module-global [database]: the blob and the mimetype stored for
    each identifier.  The mimetype is whatever value [upload] hands
    over. *)
Abbreviation Database := (gmap Z (list byte * json)).

(** A computation over the database. *)
Definition M (A : Type) : Type := Database -> outcome A * Database.

#[export] Instance M_ret : MRet M := fun A a db => (Return a, db).

#[export] Instance M_bind : MBind M := fun A B k c db =>
  match c db with
  | (Return a, db') => k a db'
  | (Raise e, db') => (Raise e, db')
  end.

(** [raise e] *)
Definition raise {A} (e : exn) : M A := fun db => (Raise e, db).

(** A call that may raise but does not touch the database. *)
Definition call {A} (r : outcome A) : M A := fun db => (r, db).

(** [try: body except Exception: raise error], for a body of library
    calls, where [None] stands for any exception of the body. *)
Definition try_except {A} (body : option A) (error : HttpError) : M A :=
  match body with
  | Some a => mret a
  | None => raise (HttpExn error)
  end.

(** Modelled from the spec: [database.py] is not among the sources.
    [get(id)] returns the bytes and the mimetype stored for [id] and
    fails with the not-found kind if no blob exists for [id]; it only
    reads.  The message of that failure is a parameter. *)
Definition get_mediafile (not_found_message : Z -> string) (media_id : Z)
  : M (list byte * json) :=
  fun db =>
    match db !! media_id with
    | Some blob => (Return blob, db)
    | None => (Raise (HttpExn (NotFoundError (not_found_message media_id))), db)
    end.

(** Modelled from the spec: [database.py] is not among the sources.
    [put(id, bytes, mimetype)] overwrites any existing blob for [id]. *)
Definition set_mediafile (media_id : Z) (media : list byte) (mimetype : json)
  : M unit :=
  fun db => (Return tt, <[media_id := (media, mimetype)]> db).

(** ** Requests and responses *)

(** What the views read of [flask.request]. *)
Record Request : Type := {
  path : string;
  request_headers : list (string * string);
  data : list byte
}.

Inductive Body : Type :=
| Stream (chunks : option (list (list byte)))
    (** a generator of chunks; [None] if it raises *)
| Json (content : json)
    (** the result of [jsonify] *)
| ServerErrorPage.
    (** what Flask sends for an exception no handler is registered for *)

(** A [flask.Response]: the status, the [mimetype] it was built with
    (from which Flask derives its Content-Type header), the headers set
    on it afterwards (a Content-Type header among them replaces the one
    derived from the mimetype), and the body. *)
Record Response : Type := {
  status : Z;
  mimetype : json;
  headers : list (string * string);
  body : Body
}.

Module Headers.

Definition same_name (k1 k2 : string) : bool :=
  String.eqb (PyStr.lower k1) (PyStr.lower k2).

(** [headers[key] = value]: header names are compared without regard
    to case; the first entry of that name is replaced and the others
    removed, a new name is appended. *)
Fixpoint set (key value : string) (hs : list (string * string))
  : list (string * string) :=
  match hs with
  | [] => [(key, value)]
  | (k, v) :: rest =>
      if same_name k key
      then (key, value) :: List.filter (fun kv => negb (same_name kv.1 key)) rest
      else (k, v) :: set key value rest
  end.

(** [headers.get(key)] *)
Fixpoint get (key : string) (hs : list (string * string)) : option string :=
  match hs with
  | [] => None
  | (k, v) :: rest => if same_name k key then Some v else get key rest
  end.

(** A header value with a line feed or a carriage return is refused
    with a [ValueError]. *)
Fixpoint has_line_break (value : string) : bool :=
  match value with
  | EmptyString => false
  | String c rest =>
      (nat_of_ascii c =? 10)%nat || (nat_of_ascii c =? 13)%nat || has_line_break rest
  end.

End Headers.

(** [response.headers[key] = value]; [None] is the [ValueError] for a
    value with a line break. *)
Definition set_header (key value : string) (response : Response) : option Response :=
  if Headers.has_line_break value then None
  else Some {| status := status response;
               mimetype := mimetype response;
               headers := Headers.set key value (headers response);
               body := body response |}.

(** The mimetype of a response built with the argument
    [mimetype=mimetype]: without a mimetype ([None]) the response gets
    the default one of Flask; a mimetype that is no string raises, as
    does one with a line break, when the Content-Type header is set
    from it.  [None] stands for the exception. *)
Definition response_mimetype (mimetype : json) : option string :=
  match mimetype with
  | JNull => Some "text/html"
  | JStr m => if Headers.has_line_break m then None else Some m
  | _ => None
  end.

(** [Response(body, mimetype=mimetype)] *)
Definition make_response (body : Body) (mimetype : json) : option Response :=
  m ← response_mimetype mimetype;
  Some {| status := 200; mimetype := JStr m; headers := []; body := body |}.

(** [jsonify(content)] *)
Definition jsonify (content : json) : Response :=
  {| status := 200;
     mimetype := JStr "application/json";
     headers := [];
     body := Json content |}.

(** [response.status_code = code] *)
Definition set_status (code : Z) (response : Response) : Response :=
  {| status := code;
     mimetype := mimetype response;
     headers := headers response;
     body := body response |}.

(** ** The error handler *)

(** [handle_view_error(error)] (the logging call leaves no trace in the
    response). *)
Definition handle_view_error (error : HttpError) : Response :=
  let res_content :=
    JDict [("success", JBool false); ("message", JStr (message error))] in
  let response := jsonify res_content in
  set_status (status_code error) response.

(** [handle_general_errors(fn)]: the exception is logged and raised
    again. *)
Definition handle_general_errors {A} (fn : M A) : M A :=
  fun db =>
    match fn db with
    | (Return a, db') => (Return a, db')
    | (Raise e, db') => (Raise e, db')
    end.

(** ** The views *)

Definition quoted (s : string) : string :=
  String PyBytes.dquote (s +:+ String PyBytes.dquote "").

(** Truth value of the [auth_header] returned by the presenter check:
    [None] and the empty string are false. *)
Definition truthy (auth_header : option string) : bool :=
  match auth_header with
  | Some (String _ _) => true
  | _ => false
  end.

Section Views.

(** [check_mediafile_id(mediafile_id, app, presenter_headers)] of
    [auth.py], which is not among the sources: it returns
    [(ok, filename, auth_header)] or raises. *)
Variable check_mediafile_id :
  Z -> gmap string string -> outcome (bool * string * option string).
(** The name of the header that carries the credential ([auth.py]). *)
Variable AUTH_HEADER : string.
(** [app.config["BLOCK_SIZE"]] *)
Variable BLOCK_SIZE : Z.
(** The message of [NotFoundError()] built without argument. *)
Variable default_message : string.
(** The message of the not-found failure of [database.get_mediafile]. *)
Variable missing_message : Z -> string.
(** [bytes.decode], [json.loads] and [base64.b64decode] of the Python
    library; [None] stands for a raised exception. *)
Variable bytes_decode : list byte -> option string.
Variable json_loads : string -> option json.
Variable b64decode : list byte -> option (list byte).
(** [int] of the Python library on the strings that [PyVal.int_of_str]
    leaves to it. *)
Variable int_beyond : string -> option Z.

(** The last lines of [serve]: the response built from the answer of
    the presenter check and from the stored blob; [None] when building
    the response or setting a header raises. *)
Definition serve_response (filename : string) (auth_header : option string)
    (data : list byte) (mimetype : json) : option Response :=
  let block_size := BLOCK_SIZE in
  response ← make_response (Stream (chunked block_size data)) mimetype;
  response ←
    set_header "Content-Disposition" ("inline; filename=" +:+ quoted filename) response;
  if truthy auth_header
  then set_header AUTH_HEADER (default "" auth_header) response
  else Some response.

(** The exception of a response that cannot be built. *)
Definition response_error : exn := OtherExn "ValueError".

(** [serve(mediafile_id)], without its decorators. *)
Definition serve_view (request : Request) (mediafile_id : Z) : M Response :=
  let presenter_headers := presenter_headers (request_headers request) in
  '(ok, filename, auth_header) ← call (check_mediafile_id mediafile_id presenter_headers);
  if negb ok then raise (HttpExn (NotFoundError default_message))
  else
    '(data, mimetype) ← get_mediafile missing_message mediafile_id;
    match serve_response filename auth_header data mimetype with
    | Some response => mret response
    | None => raise response_error
    end.

Definition serve (request : Request) (mediafile_id : Z) : M Response :=
  handle_general_errors (serve_view request mediafile_id).

Definition wrong_format (request : Request) : string :=
  "The post request.data is not in right format: " +:+ PyBytes.repr (data request).

(** The body of the first [try] of [upload]. *)
Definition parse_payload (request : Request) : option json :=
  decoded ← bytes_decode (data request);
  json_loads decoded.

(** The body of the second [try]. *)
Definition decode_file (dejson : json) : option (list byte) :=
  file ← PyVal.getitem dejson "file";
  encoded ← PyVal.encode file;
  b64decode encoded.

(** The body of the third [try]. *)
Definition read_fields (dejson : json) : option (Z * json) :=
  id ← PyVal.getitem dejson "id";
  media_id ← PyVal.int int_beyond id;
  mimetype ← PyVal.getitem dejson "mimetype";
  Some (media_id, mimetype).

(** What [upload] returns: [{"success": True}, 200]. *)
Definition upload_done : Response :=
  set_status 200 (jsonify (JDict [("success", JBool true)])).

(** [upload()], without its decorators. *)
Definition upload_view (request : Request) : M Response :=
  dejson ← try_except (parse_payload request)
    (BadRequestError "request.data is not json");
  media ← try_except (decode_file dejson)
    (BadRequestError "cannot decode base64 file");
  '(media_id, mimetype) ← try_except (read_fields dejson)
    (BadRequestError (wrong_format request));
  set_mediafile media_id media mimetype;;
  mret upload_done.

Definition upload (request : Request) : M Response :=
  handle_general_errors (upload_view request).

(** ** The boundary *)

(** What Flask does with the outcome of a view: a returned response is
    sent, an [HttpError] goes through [handle_view_error], any other
    exception becomes a 500 response. *)
Definition dispatch (view : M Response) : Database -> Response * Database :=
  fun db =>
    match view db with
    | (Return response, db') => (response, db')
    | (Raise (HttpExn error), db') => (handle_view_error error, db')
    | (Raise (OtherExn _), db') =>
        ({| status := 500; mimetype := JStr "text/html"; headers := [];
            body := ServerErrorPage |}, db')
    end.

End Views.

(** The uniform error envelope of the interface: the JSON object
    [{"success": false, "message": message}] sent with the given status
    code. *)
Definition error_envelope (code : Z) (message : string) : Response :=
  {| status := code;
     mimetype := JStr "application/json";
     headers := [];
     body := Json (JDict [("success", JBool false); ("message", JStr message)]) |}.


(** ** Base64 of the Python library *)

(** [base64.b64encode] and [base64.b64decode] (the latter through
    [binascii.a2b_base64] without strict mode): an instance for the
    parameter [b64decode] of the views. *)
Module Base64.

Definition Z_of_byte (b : byte) : Z := Z.of_N (Byte.to_N b).

Definition byte_of_Z (z : Z) : byte :=
  default x00%byte (Byte.of_N (Z.to_N (z mod 256))).

Definition alphabet : list byte :=
  PyStr.encode "ABCDEFGHIJKLMNOPQRSTUVWXYZabcdefghijklmnopqrstuvwxyz0123456789+/".

Definition pad : byte := x3d%byte.

(** The character of a six-bit value. *)
Definition b2a (v : Z) : byte := nth (Z.to_nat v) alphabet pad.

Fixpoint index (c : byte) (cs : list byte) (i : Z) : option Z :=
  match cs with
  | [] => None
  | c' :: rest => if Byte.eqb c c' then Some i else index c rest (i + 1)
  end.

(** The six-bit value of a character of the alphabet. *)
Definition a2b (c : byte) : option Z := index c alphabet 0.

(** The four characters of a group of three bytes. *)
Definition quad (a b c : Z) : list byte :=
  [ b2a (Z.shiftr a 2);
    b2a (Z.lor (Z.shiftl (Z.land a 3) 4) (Z.shiftr b 4));
    b2a (Z.lor (Z.shiftl (Z.land b 15) 2) (Z.shiftr c 6));
    b2a (Z.land c 63) ].

Fixpoint encode (bs : list byte) : list byte :=
  match bs with
  | [] => []
  | [a] => take 2 (quad (Z_of_byte a) 0 0) ++ [pad; pad]
  | [a; b] => take 3 (quad (Z_of_byte a) (Z_of_byte b) 0) ++ [pad]
  | a :: b :: c :: rest =>
      quad (Z_of_byte a) (Z_of_byte b) (Z_of_byte c) ++ encode rest
  end.

(** The decoding loop: [quad_pos] characters of the current group have
    been read, [leftchar] holds the bits not yet written and [pads]
    counts the padding characters seen since the last character of
    the alphabet.  Characters outside the alphabet are skipped; the
    input must not end inside a group. *)
Fixpoint decode_loop (quad_pos : nat) (leftchar : Z) (pads : nat)
    (input : list byte) : option (list byte) :=
  match input with
  | [] => if (quad_pos =? 0)%nat then Some [] else None
  | ch :: rest =>
      if Byte.eqb ch pad then
        if (2 <=? quad_pos)%nat then
          if (4 <=? quad_pos + (pads + 1))%nat then Some []
          else decode_loop quad_pos leftchar (pads + 1) rest
        else decode_loop quad_pos leftchar pads rest
      else
        match a2b ch with
        | None => decode_loop quad_pos leftchar pads rest
        | Some v =>
            match quad_pos with
            | 0%nat => decode_loop 1 v 0 rest
            | 1%nat =>
                cons (byte_of_Z (Z.lor (Z.shiftl leftchar 2) (Z.shiftr v 4)))
                  <$> decode_loop 2 (Z.land v 15) 0 rest
            | 2%nat =>
                cons (byte_of_Z (Z.lor (Z.shiftl leftchar 4) (Z.shiftr v 2)))
                  <$> decode_loop 3 (Z.land v 3) 0 rest
            | _ =>
                cons (byte_of_Z (Z.lor (Z.shiftl leftchar 6) v))
                  <$> decode_loop 0 0 0 rest
            end
        end
  end.

Definition decode (input : list byte) : option (list byte) :=
  decode_loop 0 0 0 input.

End Base64.

(** Checking a property of the numbers below a bound by running it. *)
Definition below (bound : nat) (P : Z -> bool) : bool :=
  forallb (fun n => P (Z.of_nat n)) (seq 0 bound).

(** ** Sample requests *)

(** Concrete instances of the parameters of the views and a few
    requests, on which the theorems below are exercised. *)
Module Sample.

(** [bytes.decode] on ASCII data. *)
Definition bytes_decode (bs : list byte) : option string :=
  Some (string_of_list_byte bs).

(** [json.loads] on the texts of a table. *)
Definition json_loads (table : list (string * json)) (text : string) : option json :=
  PyVal.assoc text table.

(** [int] on the strings that are left to the library, of which the
    samples have one: the Arabic-Indic digit three. *)
Definition int_beyond (text : string) : option Z :=
  if String.eqb text "٣" then Some 3 else None.

(** A presenter check that grants every request. *)
Definition grant (mediafile_id : Z) (presenter_headers : gmap string string)
  : outcome (bool * string * option string) :=
  Return (true, "logo.png", Some "token-1").

(** A presenter check that denies every request. *)
Definition deny (mediafile_id : Z) (presenter_headers : gmap string string)
  : outcome (bool * string * option string) :=
  Return (false, "", None).

(** Values for the constants of [auth.py], of the configuration and
    of the messages of [NotFoundError]. *)
Definition AUTH_HEADER : string := "Authentication".
Definition BLOCK_SIZE : Z := 2.
Definition default_message : string := "".
Definition missing_message (media_id : Z) : string := "no such mediafile".

Definition member (key value : string) : string :=
  quoted key +:+ ": " +:+ value.

(** The text [{"id": <id>, "mimetype": "image/png", "file": "<file>"}]. *)
Definition payload_text (id file : string) : string :=
  "{" +:+ member "id" id +:+ ", " +:+ member "mimetype" (quoted "image/png")
      +:+ ", " +:+ member "file" (quoted file) +:+ "}".

Definition payload (id : json) (file : string) : json :=
  JDict [("id", id); ("mimetype", JStr "image/png"); ("file", JStr file)].

Definition post (text : string) : Request :=
  {| path := "/internal/media/upload";
     request_headers := [("Content-Type", "application/json")];
     data := PyStr.encode text |}.

Definition get (mediafile_id : string) : Request :=
  {| path := "/system/media/get/" +:+ mediafile_id;
     request_headers := [("Host", "media"); ("Content-Type", "text/plain")];
     data := [] |}.

(** The text [{"mimetype": "image/png", "file": "<file>"}], without
    [id]. *)
Definition payload_text_no_id (file : string) : string :=
  "{" +:+ member "mimetype" (quoted "image/png")
      +:+ ", " +:+ member "file" (quoted file) +:+ "}".

Definition payload_no_id (file : string) : json :=
  JDict [("mimetype", JStr "image/png"); ("file", JStr file)].

(** The bytes 1 to 5 and their base64 text. *)
Definition blob : list byte := [x01; x02; x03; x04; x05]%byte.
Definition blob_text : string := "AQIDBAU=".

(** A database that holds the blob under 42. *)
Definition stored : Database := {[ 42 := (blob, JStr "image/png") ]}.

(** 3.7 as a binary64 number. *)
Definition f3_7 : spec_float := S754_finite false 8331659310635418 (-51).

(** The views with these instances. *)
Definition serve_granted : Request -> Z -> M Response :=
  serve grant AUTH_HEADER BLOCK_SIZE default_message missing_message.

Definition serve_denied : Request -> Z -> M Response :=
  serve deny AUTH_HEADER BLOCK_SIZE default_message missing_message.

(** [upload] where [json.loads] knows one payload text. *)
Definition upload_of (text : string) (dejson : json) : Request -> M Response :=
  upload bytes_decode (json_loads [(text, dejson)]) Base64.decode int_beyond.

Definition text_42 : string := payload_text "42" blob_text.
Definition text_minus_5 : string := payload_text (quoted "-5") blob_text.
Definition text_no_id : string := payload_text_no_id blob_text.

End Sample.

(** ** The deletion loop of [serve], with its errors *)

(** [del d[key]]: a [KeyError], here [None], when the key is absent. *)
Definition del_item (key : string) (d : gmap string string)
  : option (gmap string string) :=
  match d !! key with
  | Some _ => Some (delete key d)
  | None => None
  end.

(** [for key in keys: del d[key]] *)
Fixpoint del_items (keys : list string) (d : gmap string string)
  : option (gmap string string) :=
  match keys with
  | [] => Some d
  | key :: rest => d' ← del_item key d; del_items rest d'
  end.

(** ** More sample requests *)

Module Cases.

(** A presenter check that fails with an exception of its own. *)
Definition broken (mediafile_id : Z) (presenter_headers : gmap string string)
  : outcome (bool * string * option string) :=
  Raise (OtherExn "ConnectionError").

(** A presenter check that grants the request, without credential. *)
Definition grant_plain (mediafile_id : Z) (presenter_headers : gmap string string)
  : outcome (bool * string * option string) :=
  Return (true, "logo.png", None).

(** The bytes 10 and 11 and their base64 text. *)
Definition blob : list byte := [x0a; x0b]%byte.
Definition blob_text : string := "Cgs=".

Definition text_42 : string := Sample.payload_text "42" blob_text.
Definition text_7 : string := Sample.payload_text "7" blob_text.
Definition text_list : string := "[1, 2]".
Definition text_bad_id : string := Sample.payload_text (quoted "x") blob_text.

(** A line feed, and a text with a line feed in it. *)
Definition LF : string := String "010"%char "".
Definition two_lines : string := "a" +:+ LF +:+ "b".

(** A presenter check that grants the request with the given file name
    and credential. *)
Definition grant_with (filename : string) (auth_header : option string)
    (mediafile_id : Z) (presenter_headers : gmap string string)
  : outcome (bool * string * option string) :=
  Return (true, filename, auth_header).

(** The text [{"id": 42, "mimetype": "a
b", "file": "AQIDBAU="}], the
    line feed of the mimetype being written as an escape. *)
Definition text_two_lines : string :=
  "{" +:+ Sample.member "id" "42" +:+ ", "
      +:+ Sample.member "mimetype" (quoted ("a" +:+ String PyBytes.backslash "nb"))
      +:+ ", " +:+ Sample.member "file" (quoted Sample.blob_text) +:+ "}".

Definition payload_two_lines : json :=
  JDict [("id", JInt 42); ("mimetype", JStr two_lines); ("file", JStr Sample.blob_text)].

(** The payload of the samples with four exclamation marks as [file]. *)
Definition text_marks : string := Sample.payload_text "42" "!!!!".

(** The payload without [id], followed by a line feed. *)
Definition text_no_id_lf : string := Sample.text_no_id +:+ LF.


(** [json.loads] on the payload texts of the samples. *)
Definition json_loads : string -> option json :=
  Sample.json_loads
    [ (Sample.text_42, Sample.payload (JInt 42) Sample.blob_text);
      (text_42, Sample.payload (JInt 42) blob_text);
      (text_7, Sample.payload (JInt 7) blob_text);
      (text_list, JList [JInt 1; JInt 2]);
      (text_bad_id, Sample.payload (JStr "x") blob_text);
      ("{}", JDict []);
      (text_two_lines, payload_two_lines);
      (text_marks, Sample.payload (JInt 42) "!!!!");
      (text_no_id_lf, Sample.payload_no_id Sample.blob_text) ].

Definition upload : Request -> M Response :=
  upload Sample.bytes_decode json_loads Base64.decode Sample.int_beyond.

Definition serve (check : Z -> gmap string string -> outcome (bool * string * option string))
    (block_size : Z) : Request -> Z -> M Response :=
  serve check Sample.AUTH_HEADER block_size Sample.default_message
    Sample.missing_message.

End Cases.

(** * Properties *)

Example chunked_ex :
  chunked 2 [x01; x02; x03; x04; x05]%byte = Some [[x01; x02]; [x03; x04]; [x05]]%byte.
Proof. reflexivity. Qed.

Example presenter_headers_ex :
  presenter_headers [("Content-Type", "a"); ("x-content", "b"); ("Host", "c")]
  = {[ "Content-Type" := "a"; "Host" := "c" ]}.
Proof. vm_compute. reflexivity. Qed.

Example int_examples :
  let int := PyVal.int Sample.int_beyond in
  int (JStr "-5") = Some (-5) /\ int (JStr " 1_000 ") = Some 1000 /\
  int (JStr "1__0") = None /\ int (JStr "") = None /\
  int (JStr "- 5") = None /\ int (JStr "0x10") = None /\
  int (JStr (String "031"%char "7")) = None /\ int (JStr "٣") = Some 3 /\
  int (JFloat Sample.f3_7) = Some 3 /\ int (JBool true) = Some 1 /\
  int JNull = None.
Proof. repeat split; reflexivity. Qed.

Example repr_text : PyBytes.repr (PyStr.encode "{}") = "b'{}'".
Proof. reflexivity. Qed.

(** ** Slices and ranges *)

Section Chunking.

Context {A : Type}.
Implicit Types (l source : list A) (s c k : nat).

Lemma clip_nonneg (len i : Z) :
  0 <= len -> 0 <= i -> PySeq.clip len i = Z.min len i.
Proof.
  intros Hlen Hi. unfold PySeq.clip.
  destruct (Z.ltb_spec i 0); lia.
Qed.

(** A slice with non-negative bounds is a [take] of a [drop]. *)
Lemma slice_take_drop source (i n : Z) :
  0 <= i -> 0 <= n ->
  PySeq.slice source i (i + n) = take (Z.to_nat n) (drop (Z.to_nat i) source).
Proof.
  intros Hi Hn. unfold PySeq.slice.
  rewrite !clip_nonneg by lia.
  set (len := Z.of_nat (length source)).
  destruct (Z.le_gt_cases (i + n) len) as [Hfit | Hover].
  - rewrite !Z.min_r by lia. f_equal. lia.
  - destruct (Z.le_gt_cases i len) as [Hin | Hout].
    + rewrite (Z.min_r len i) by lia. rewrite Z.min_l by lia.
      rewrite !take_ge; [done | rewrite length_drop; lia | rewrite length_drop; lia].
    + rewrite !Z.min_l by lia.
      rewrite (drop_ge source (Z.to_nat i)) by lia.
      rewrite Z.sub_diag. simpl. by rewrite take_nil.
Qed.

(** The first [c] blocks of [s] elements make up the first [c * s]
    elements. *)
Lemma concat_blocks_take l s c :
  concat (map (fun k => take s (drop (k * s) l)) (seq 0 c)) = take (c * s) l.
Proof.
  induction c as [| c IH].
  - by rewrite take_0.
  - rewrite seq_S, map_app, concat_app, IH. simpl.
    rewrite app_nil_r, take_take_drop. f_equal. lia.
Qed.

End Chunking.

(** The number of starting offsets that [range(0, n, size)] produces
    covers [n]. *)
Lemma range_count_covers (n size : Z) :
  0 <= n -> 0 < size ->
  n <= (if 0 <? n then (n - 0 - 1) / size + 1 else 0) * size.
Proof.
  intros Hn Hs. destruct (Z.ltb_spec 0 n) as [Hpos | Hzero]; [| lia].
  rewrite Z.sub_0_r.
  pose proof (Z.mod_pos_bound (n - 1) size Hs) as Hmod.
  pose proof (Z.div_mod (n - 1) size ltac:(lia)) as Hdiv.
  nia.
Qed.

Lemma chunked_blocks (size : Z) (source : list byte) :
  0 < size ->
  exists c : nat,
    Z.of_nat (length source) <= Z.of_nat c * size /\
    chunked size source =
      Some (map (fun k => take (Z.to_nat size) (drop (k * Z.to_nat size)%nat source))
                (seq 0 c)).
Proof.
  intros Hs. unfold chunked, PySeq.range.
  destruct (Z.eqb_spec size 0) as [| _]; [lia |].
  destruct (Z.ltb_spec 0 size) as [_ |]; [| lia].
  set (n := Z.of_nat (length source)).
  set (count := if 0 <? n then (n - 0 - 1) / size + 1 else 0).
  assert (Hcount : 0 <= count).
  { subst count. destruct (Z.ltb_spec 0 n); [| lia].
    pose proof (Z.div_pos (n - 0 - 1) size). lia. }
  exists (Z.to_nat count). split.
  - rewrite Z2Nat.id by lia. apply range_count_covers; lia.
  - simpl. f_equal. rewrite map_map. apply map_ext. intros k.
    rewrite slice_take_drop by lia. do 2 f_equal.
    rewrite Z.add_0_l, Z2Nat.inj_mul, Nat2Z.id by lia. done.
Qed.

Lemma chunked_concat (size : Z) (source : list byte) :
  0 < size ->
  exists chunks : list (list byte),
    chunked size source = Some chunks /\ concat chunks = source.
Proof.
  intros Hs. destruct (chunked_blocks size source Hs) as (c & Hcover & ->).
  eexists. split; [reflexivity |].
  rewrite concat_blocks_take. apply take_ge.
  rewrite <- (Z2Nat.id size) in Hcover by lia. lia.
Qed.

(** C2.  For every byte sequence and every positive chunk size,
    [chunked] yields finitely many chunks, each of at most the chunk
    size, whose concatenation in the order of emission is the byte
    sequence. *)
Theorem chunked_lossless (size : Z) (source : list byte) :
  0 < size ->
  exists chunks : list (list byte),
    chunked size source = Some chunks /\
    Forall (fun chunk => Z.of_nat (length chunk) <= size) chunks /\
    concat chunks = source.
Proof.
  intros Hs. destruct (chunked_blocks size source Hs) as (c & Hcover & ->).
  eexists. split; [reflexivity |]. split.
  - apply Forall_forall. intros chunk Hin.
    apply list_elem_of_In, in_map_iff in Hin. destruct Hin as (k & <- & _).
    rewrite length_take. lia.
  - rewrite concat_blocks_take. apply take_ge.
    rewrite <- (Z2Nat.id size) in Hcover by lia. lia.
Qed.

Lemma chunked_lossless_witness :
  exists chunks : list (list byte),
    chunked 2 [x01; x02; x03; x04; x05]%byte = Some chunks /\
    Forall (fun chunk => Z.of_nat (length chunk) <= 2) chunks /\
    concat chunks = [x01; x02; x03; x04; x05]%byte.
Proof. apply chunked_lossless. lia. Defined.

(** ** The headers handed to the presenter *)

Lemma lookup_foldl_delete (keys : list string) (d : gmap string string) (key : string) :
  foldl (fun d key => delete key d) d keys !! key =
    if decide (key ∈ keys) then None else d !! key.
Proof.
  revert d. induction keys as [| k keys IH]; intros d; cbn [foldl].
  - rewrite decide_False; [done | apply not_elem_of_nil].
  - rewrite IH. destruct (decide (key ∈ keys)) as [Hin | Hin].
    + rewrite decide_True; [done | by right].
    + destruct (decide (key = k)) as [-> | Hne].
      * rewrite lookup_delete_eq, decide_True; [done | by left].
      * rewrite lookup_delete_ne by done.
        rewrite decide_False; [done |].
        intros [? | ?]%elem_of_cons; done.
Qed.

Lemma elem_of_del_keys (d : gmap string string) (key : string) :
  key ∈ del_keys d <-> PyStr.contains "content" key = true /\ is_Some (d !! key).
Proof.
  unfold del_keys, dict_keys.
  rewrite list_elem_of_In, filter_In, <- list_elem_of_In, list_elem_of_fmap.
  split.
  - intros [([k v] & -> & Hkv) Hc]. apply elem_of_map_to_list in Hkv. eauto.
  - intros [Hc [v Hv]]. split; [| done].
    exists (key, v). split; [done |]. by apply elem_of_map_to_list.
Qed.

(** What [serve] does to the headers: the dictionary of the request
    headers, restricted to the names that do not contain the text
    "content" as it is written, in lower case. *)
Lemma presenter_headers_filter (hs : list (string * string)) :
  presenter_headers hs =
    filter (fun kv => PyStr.contains "content" kv.1 = false) (py_dict hs).
Proof.
  unfold presenter_headers. apply map_eq. intros key.
  rewrite lookup_foldl_delete.
  destruct (py_dict hs !! key) as [v |] eqn:Hkey.
  - destruct (PyStr.contains "content" key) eqn:Hc.
    + rewrite decide_True by (apply elem_of_del_keys; eauto).
      symmetry. apply map_lookup_filter_None. right. intros v' _. simpl. congruence.
    + rewrite decide_False by (rewrite elem_of_del_keys; intros [? _]; congruence).
      symmetry. by apply map_lookup_filter_Some.
  - assert ((filter (fun kv => PyStr.contains "content" kv.1 = false) (py_dict hs)) !! key = None) as ->.
    { apply map_lookup_filter_None. by left. }
    by destruct (decide _).
Qed.

(** C1.  The header filter of [serve] compares names as they are
    written: a request header named Content-Type, whose name contains
    "content" once letter case is ignored, is still in the dictionary
    passed to [check_mediafile_id]. *)
Theorem presenter_headers_keep_content_type :
  let hs := [("Content-Type", "application/json"); ("Host", "media")] in
  PyStr.contains "content" (PyStr.lower "Content-Type") = true /\
  presenter_headers hs !! "Content-Type" = Some "application/json" /\
  presenter_headers hs = py_dict hs.
Proof. vm_compute. done. Qed.

(** ** Header access *)

Lemma same_name_refl (k : string) : Headers.same_name k k = true.
Proof. unfold Headers.same_name. apply String.eqb_refl. Qed.


(** A header that was set is read back. *)
Lemma headers_get_set (key value : string) (hs : list (string * string)) :
  Headers.get key (Headers.set key value hs) = Some value.
Proof.
  induction hs as [| [k v] hs IH]; simpl.
  - by rewrite same_name_refl.
  - destruct (Headers.same_name k key) eqn:Hk; simpl.
    + by rewrite same_name_refl.
    + by rewrite Hk.
Qed.

Lemma headers_get_filter (key other : string) (hs : list (string * string)) :
  Headers.same_name other key = false ->
  Headers.get key (List.filter (fun kv => negb (Headers.same_name kv.1 other)) hs)
  = Headers.get key hs.
Proof.
  intros Hne. unfold Headers.same_name in *.
  induction hs as [| [k v] hs IH]; simpl; [done |].
  destruct (String.eqb_spec (PyStr.lower k) (PyStr.lower other)) as [Hko | Hko]; simpl.
  - rewrite IH. unfold Headers.same_name. by rewrite Hko, Hne.
  - rewrite IH. done.
Qed.

(** Setting a header of another name leaves a header as it is. *)
Lemma headers_get_set_other (key other value : string) (hs : list (string * string)) :
  Headers.same_name other key = false ->
  Headers.get key (Headers.set other value hs) = Headers.get key hs.
Proof.
  intros Hne. induction hs as [| [k v] hs IH]; simpl.
  - by rewrite Hne.
  - destruct (Headers.same_name k other) eqn:Hk; simpl.
    + rewrite Hne, headers_get_filter by done.
      unfold Headers.same_name in *.
      apply String.eqb_eq in Hk. by rewrite Hk, Hne.
    + by rewrite IH.
Qed.

(** ** Retrieval *)

Section Retrieval.

Variable check_mediafile_id :
  Z -> gmap string string -> outcome (bool * string * option string).
Variables (AUTH_HEADER : string) (BLOCK_SIZE : Z).
Variables (default_message : string) (missing_message : Z -> string).

Let serve' := serve check_mediafile_id AUTH_HEADER BLOCK_SIZE default_message missing_message.
Let serve_response' := serve_response AUTH_HEADER BLOCK_SIZE.

Lemma handle_general_errors_run {A} (fn : M A) (db : Database) :
  handle_general_errors fn db = fn db.
Proof. unfold handle_general_errors. by destruct (fn db) as [[a | e] db']. Qed.

(** The five ways through [serve]. *)
Lemma serve_run (request : Request) (mediafile_id : Z) (db : Database) :
  serve' request mediafile_id db =
    match check_mediafile_id mediafile_id (presenter_headers (request_headers request)) with
    | Raise e => (Raise e, db)
    | Return (false, _, _) => (Raise (HttpExn (NotFoundError default_message)), db)
    | Return (true, filename, auth_header) =>
        match db !! mediafile_id with
        | None =>
            (Raise (HttpExn (NotFoundError (missing_message mediafile_id))), db)
        | Some (data, mimetype) =>
            match serve_response' filename auth_header data mimetype with
            | Some response => (Return response, db)
            | None => (Raise response_error, db)
            end
        end
    end.
Proof.
  unfold serve', serve. rewrite handle_general_errors_run.
  unfold serve_view, mbind, M_bind, call.
  destruct (check_mediafile_id _ _) as [[[[] filename] auth_header] | e]; simpl; try done.
  unfold get_mediafile.
  destruct (db !! mediafile_id) as [[data mimetype] |]; [| done].
  fold serve_response'.
  by destruct (serve_response' filename auth_header data mimetype).
Qed.

Lemma has_line_break_app (a b : string) :
  Headers.has_line_break (a +:+ b)
  = Headers.has_line_break a || Headers.has_line_break b.
Proof.
  induction a as [| c a IH]; [done |]. simpl. rewrite IH.
  by rewrite !orb_assoc.
Qed.

Lemma has_line_break_disposition (filename : string) :
  Headers.has_line_break ("inline; filename=" +:+ quoted filename)
  = Headers.has_line_break filename.
Proof.
  unfold quoted. rewrite has_line_break_app.
  change (Headers.has_line_break (String PyBytes.dquote (filename +:+ String PyBytes.dquote "")))
    with (Headers.has_line_break (filename +:+ String PyBytes.dquote "")).
  rewrite has_line_break_app. simpl. by rewrite orb_false_r.
Qed.


(** What [serve_response] builds, and when it raises. *)
Lemma serve_response_run (filename : string) (auth_header : option string)
    (data : list byte) (mt : json) :
  serve_response' filename auth_header data mt =
    match response_mimetype mt with
    | None => None
    | Some m =>
        if Headers.has_line_break filename then None
        else if Headers.has_line_break (default "" auth_header) then None
        else
          let disposition :=
            [("Content-Disposition", "inline; filename=" +:+ quoted filename)] in
          Some {| status := 200;
                  mimetype := JStr m;
                  headers :=
                    if truthy auth_header
                    then Headers.set AUTH_HEADER (default "" auth_header) disposition
                    else disposition;
                  body := Stream (chunked BLOCK_SIZE data) |}
    end.
Proof.
  unfold serve_response', serve_response, make_response.
  destruct (response_mimetype mt) as [m |]; [| done].
  with_strategy opaque [String.append quoted] (simpl; unfold set_header).
  rewrite has_line_break_disposition.
  destruct (Headers.has_line_break filename); [done |].
  with_strategy opaque [String.append quoted] simpl.
  destruct (truthy auth_header) eqn:Htruthy.
  - by destruct (Headers.has_line_break (default "" auth_header)).
  - by destruct auth_header as [[| c credential] |].
Qed.

Lemma dispatch_run (view : M Response) (db : Database) :
  dispatch view db =
    match view db with
    | (Return response, db') => (response, db')
    | (Raise (HttpExn error), db') =>
        (error_envelope (status_code error) (message error), db')
    | (Raise (OtherExn _), db') =>
        ({| status := 500; mimetype := JStr "text/html"; headers := [];
            body := ServerErrorPage |}, db')
    end.
Proof. unfold dispatch. by destruct (view db) as [[response | [error | what]] db']. Qed.


(** C9.  Retrieval only reads: whatever the request, the answer of the
    presenter check and the outcome, the database after [serve] is the
    database before it. *)
Theorem serve_leaves_database (request : Request) (mediafile_id : Z) (db : Database) :
  (serve' request mediafile_id db).2 = db /\
  (dispatch (serve' request mediafile_id) db).2 = db.
Proof.
  rewrite dispatch_run, serve_run.
  destruct (check_mediafile_id _ _) as [[[[] filename] auth_header] | [error | what]];
    try done.
  destruct (db !! mediafile_id) as [[data mt] |]; [| done].
  by destruct (serve_response' filename auth_header data mt).
Qed.

End Retrieval.

(** ** The request data in the wrong-format message *)

Lemma escape_plain (b : byte) :
  PyBytes.plain b = true ->
  PyBytes.escape PyBytes.squote b = String (ascii_of_byte b) "" /\
  Ascii.eqb (ascii_of_byte b) PyBytes.squote = false.
Proof. destruct b; intros Hb; first [discriminate Hb | split; reflexivity]. Qed.

Lemma concat_escape_plain (bs : list byte) :
  forallb PyBytes.plain bs = true ->
  String.concat "" (map (PyBytes.escape PyBytes.squote) bs) = string_of_list_byte bs.
Proof.
  induction bs as [| b bs IH]; [done |]. intros Hplain.
  cbn [forallb] in Hplain. apply andb_true_iff in Hplain as [Hb Hbs].
  specialize (IH Hbs). cbn [map String.concat].
  destruct (escape_plain b Hb) as [-> _].
  destruct bs as [| b' bs]; [done |].
  cbn [map] in *. rewrite IH. reflexivity.
Qed.

Lemma has_squote_plain (bs : list byte) :
  forallb PyBytes.plain bs = true -> PyBytes.has PyBytes.squote bs = false.
Proof.
  induction bs as [| b bs IH]; [done |]. intros Hplain.
  cbn [forallb] in Hplain. apply andb_true_iff in Hplain as [Hb Hbs].
  unfold PyBytes.has in *. cbn [existsb].
  destruct (escape_plain b Hb) as [_ ->]. by apply IH.
Qed.

(** Data made of printable ASCII bytes without single quote and
    backslash are printed as they are, between [b'] and [']. *)
Lemma repr_plain (bs : list byte) :
  forallb PyBytes.plain bs = true ->
  PyBytes.repr bs = "b'" +:+ string_of_list_byte bs +:+ "'".
Proof.
  intros Hplain. unfold PyBytes.repr.
  rewrite has_squote_plain, concat_escape_plain by done. reflexivity.
Qed.

(** ** Base64: decoding undoes encoding *)

Section Base64Facts.

Import Base64.

Lemma below_spec (bound : nat) (P : Z -> bool) (z : Z) :
  below bound P = true -> 0 <= z < Z.of_nat bound -> P z = true.
Proof.
  unfold below. rewrite forallb_forall. intros Hall Hz.
  specialize (Hall (Z.to_nat z)). rewrite Z2Nat.id in Hall by lia.
  apply Hall, in_seq. lia.
Qed.

Lemma Z_of_byte_range (b : byte) : 0 <= Z_of_byte b < 256.
Proof.
  unfold Z_of_byte. pose proof (Byte.to_N_bounded b) as Hb. lia.
Qed.

Lemma byte_of_Z_of_byte (b : byte) : byte_of_Z (Z_of_byte b) = b.
Proof.
  unfold byte_of_Z. rewrite Z.mod_small by apply Z_of_byte_range.
  unfold Z_of_byte. rewrite N2Z.id, Byte.of_to_N. done.
Qed.

(** The alphabet has 64 distinct characters, none of them the padding. *)
Lemma a2b_b2a (v : Z) :
  0 <= v < 64 -> Byte.eqb (b2a v) pad = false /\ a2b (b2a v) = Some v.
Proof.
  intros Hv.
  assert (Hall : below 64 (fun v => negb (Byte.eqb (b2a v) pad) &&
                                   bool_decide (a2b (b2a v) = Some v)) = true)
    by (vm_compute; reflexivity).
  apply (below_spec 64 _ v) in Hall; [| lia].
  apply andb_true_iff in Hall as [Hpad Hidx].
  apply negb_true_iff in Hpad. apply bool_decide_eq_true in Hidx. done.
Qed.

(** One character of the alphabet through the decoding loop. *)
Lemma decode_loop_char (quad_pos : nat) (leftchar : Z) (pads : nat) (v : Z)
    (rest : list byte) :
  0 <= v < 64 ->
  decode_loop quad_pos leftchar pads (b2a v :: rest) =
    match quad_pos with
    | 0%nat => decode_loop 1 v 0 rest
    | 1%nat =>
        cons (byte_of_Z (Z.lor (Z.shiftl leftchar 2) (Z.shiftr v 4)))
          <$> decode_loop 2 (Z.land v 15) 0 rest
    | 2%nat =>
        cons (byte_of_Z (Z.lor (Z.shiftl leftchar 4) (Z.shiftr v 2)))
          <$> decode_loop 3 (Z.land v 3) 0 rest
    | _ =>
        cons (byte_of_Z (Z.lor (Z.shiftl leftchar 6) v))
          <$> decode_loop 0 0 0 rest
    end.
Proof.
  intros Hv. destruct (a2b_b2a v Hv) as [Hpad Hidx].
  cbn [decode_loop]. rewrite Hpad, Hidx. done.
Qed.

(** The six-bit values of a group are in range, and the bits come back
    in place. *)
Lemma sextets (a b c : Z) :
  0 <= a < 256 -> 0 <= b < 256 -> 0 <= c < 256 ->
  let v0 := Z.shiftr a 2 in
  let v1 := Z.lor (Z.shiftl (Z.land a 3) 4) (Z.shiftr b 4) in
  let v2 := Z.lor (Z.shiftl (Z.land b 15) 2) (Z.shiftr c 6) in
  let v3 := Z.land c 63 in
  (0 <= v0 < 64 /\ 0 <= v1 < 64 /\ 0 <= v2 < 64 /\ 0 <= v3 < 64) /\
  Z.lor (Z.shiftl v0 2) (Z.shiftr v1 4) = a /\
  Z.lor (Z.shiftl (Z.land v1 15) 4) (Z.shiftr v2 2) = b /\
  Z.lor (Z.shiftl (Z.land v2 3) 6) v3 = c.
Proof.
  intros Ha Hb Hc.
  pose (in64 := fun v => (0 <=? v) && (v <? 64)).
  assert (Hab : below 256 (fun a => below 256 (fun b =>
            let v0 := Z.shiftr a 2 in
            let v1 := Z.lor (Z.shiftl (Z.land a 3) 4) (Z.shiftr b 4) in
            in64 v0 && in64 v1 &&
            (Z.lor (Z.shiftl v0 2) (Z.shiftr v1 4) =? a) &&
            (Z.land v1 15 =? Z.shiftr b 4))) = true)
    by (vm_compute; reflexivity).
  assert (Hbc : below 256 (fun b => below 256 (fun c =>
            let v2 := Z.lor (Z.shiftl (Z.land b 15) 2) (Z.shiftr c 6) in
            let v3 := Z.land c 63 in
            in64 v2 && in64 v3 &&
            (Z.lor (Z.shiftl (Z.shiftr b 4) 4) (Z.shiftr v2 2) =? b) &&
            (Z.lor (Z.shiftl (Z.land v2 3) 6) v3 =? c))) = true)
    by (vm_compute; reflexivity).
  apply (below_spec 256 _ a) in Hab; [| lia].
  apply (below_spec 256 _ b) in Hab; [| lia].
  apply (below_spec 256 _ b) in Hbc; [| lia].
  apply (below_spec 256 _ c) in Hbc; [| lia].
  cbv zeta in Hab, Hbc. subst in64. cbv beta in Hab, Hbc.
  repeat (apply andb_true_iff in Hab as [Hab ?]).
  repeat (apply andb_true_iff in Hbc as [Hbc ?]).
  intros v0 v1 v2 v3. subst v0 v1 v2 v3.
  repeat match goal with
         | H : (_ =? _) = true |- _ => apply Z.eqb_eq in H
         | H : (_ <=? _) = true |- _ => apply Z.leb_le in H
         | H : (_ <? _) = true |- _ => apply Z.ltb_lt in H
         end.
  repeat split; try lia; congruence.
Qed.

(** A full group decodes to its three bytes. *)
Lemma decode_quad (a b c : byte) (rest : list byte) :
  decode_loop 0 0 0 (quad (Z_of_byte a) (Z_of_byte b) (Z_of_byte c) ++ rest)
  = (fun bs => a :: b :: c :: bs) <$> decode_loop 0 0 0 rest.
Proof.
  destruct (sextets (Z_of_byte a) (Z_of_byte b) (Z_of_byte c)
              (Z_of_byte_range a) (Z_of_byte_range b) (Z_of_byte_range c))
    as ((H0 & H1 & H2 & H3) & Ha & Hb & Hc).
  unfold quad. cbn [app].
  rewrite !decode_loop_char by done.
  rewrite Ha, Hb, Hc, !byte_of_Z_of_byte.
  by destruct (decode_loop 0 0 0 rest).
Qed.

(** The last group of one byte, with its two padding characters. *)
Lemma decode_last_one (a : byte) :
  decode_loop 0 0 0 (take 2 (quad (Z_of_byte a) 0 0) ++ [pad; pad]) = Some [a].
Proof.
  destruct (sextets (Z_of_byte a) 0 0 (Z_of_byte_range a) ltac:(lia) ltac:(lia))
    as ((H0 & H1 & _) & Ha & _).
  unfold quad. cbn [take app].
  rewrite !decode_loop_char by done.
  rewrite Ha, byte_of_Z_of_byte. reflexivity.
Qed.

(** The last group of two bytes, with its padding character. *)
Lemma decode_last_two (a b : byte) :
  decode_loop 0 0 0 (take 3 (quad (Z_of_byte a) (Z_of_byte b) 0) ++ [pad])
  = Some [a; b].
Proof.
  destruct (sextets (Z_of_byte a) (Z_of_byte b) 0
              (Z_of_byte_range a) (Z_of_byte_range b) ltac:(lia))
    as ((H0 & H1 & H2 & _) & Ha & Hb & _).
  unfold quad. cbn [take app].
  rewrite !decode_loop_char by done.
  rewrite Ha, Hb, !byte_of_Z_of_byte. reflexivity.
Qed.

Lemma list_ind3 {A} (P : list A -> Prop) :
  P [] -> (forall a, P [a]) -> (forall a b, P [a; b]) ->
  (forall a b c l, P l -> P (a :: b :: c :: l)) ->
  forall l, P l.
Proof.
  intros Hnil Hone Htwo Hstep l.
  cut (P l /\ (forall a, P (a :: l)) /\ (forall a b, P (a :: b :: l))).
  { by intros [? _]. }
  induction l as [| x l (IH0 & IH1 & IH2)]; [by repeat split |].
  split; [apply IH1 |]. split; [intros a; apply IH2 |].
  intros a b. by apply Hstep.
Qed.

(** [b64decode(b64encode(bs)) == bs] *)
Lemma decode_encode (bs : list byte) : decode (encode bs) = Some bs.
Proof.
  unfold decode. induction bs as [| a | a b | a b c rest IH] using list_ind3.
  - reflexivity.
  - apply decode_last_one.
  - apply decode_last_two.
  - cbn [encode]. rewrite decode_quad, IH. reflexivity.
Qed.

End Base64Facts.

Example b64_blob : Base64.encode Sample.blob = PyStr.encode Sample.blob_text.
Proof. reflexivity. Qed.

Example b64_blob_back : Base64.decode (PyStr.encode Sample.blob_text) = Some Sample.blob.
Proof. reflexivity. Qed.

Example b64_lenient : Base64.decode (PyStr.encode "!!!!") = Some [].
Proof. reflexivity. Qed.

Example b64_reject : Base64.decode (PyStr.encode "abc") = None.
Proof. reflexivity. Qed.

(** ** Coercion to an integer *)

Section Coercion.

Import Decimal DecimalString.

Lemma int_digits_acc (d : uint) (p : positive) :
  PyVal.int_digits PyVal.Digit (Z.pos p) (NilEmpty.string_of_uint d)
  = Some (Z.pos (Pos.of_uint_acc d p)).
Proof.
  revert p. induction d as [| d IH | d IH | d IH | d IH | d IH | d IH | d IH
                            | d IH | d IH | d IH]; intros p; [done | ..];
    cbn [NilEmpty.string_of_uint PyVal.int_digits Pos.of_uint_acc];
    change (PyVal.digit_of _) with (Some 0) || change (PyVal.digit_of _) with (Some 1)
    || change (PyVal.digit_of _) with (Some 2) || change (PyVal.digit_of _) with (Some 3)
    || change (PyVal.digit_of _) with (Some 4) || change (PyVal.digit_of _) with (Some 5)
    || change (PyVal.digit_of _) with (Some 6) || change (PyVal.digit_of _) with (Some 7)
    || change (PyVal.digit_of _) with (Some 8) || change (PyVal.digit_of _) with (Some 9);
    cbv iota beta; rewrite <- IH; f_equal; lia.
Qed.

Lemma int_digits_uint (d : uint) (prev : PyVal.scanned) :
  d <> Nil \/ prev = PyVal.Digit ->
  PyVal.int_digits prev 0 (NilEmpty.string_of_uint d)
  = Some (Z.of_N (Pos.of_uint d)).
Proof.
  revert prev. induction d as [| d IH | d IH | d IH | d IH | d IH | d IH | d IH
                               | d IH | d IH | d IH]; intros prev Hd.
  - by destruct Hd as [? | ->].
  - cbn [NilEmpty.string_of_uint PyVal.int_digits Pos.of_uint].
    change (PyVal.digit_of _) with (Some 0). cbv iota beta.
    apply IH. by right.
  - apply (int_digits_acc d 1).
  - apply (int_digits_acc d 2).
  - apply (int_digits_acc d 3).
  - apply (int_digits_acc d 4).
  - apply (int_digits_acc d 5).
  - apply (int_digits_acc d 6).
  - apply (int_digits_acc d 7).
  - apply (int_digits_acc d 8).
  - apply (int_digits_acc d 9).
Qed.

Lemma is_ascii_uint (d : uint) : PyVal.is_ascii (NilEmpty.string_of_uint d) = true.
Proof. induction d; simpl; done. Qed.

Lemma count_digits_length (s : string) :
  (PyVal.count_digits s <= String.length s)%nat.
Proof.
  induction s as [| c s IH]; simpl; [lia |].
  destruct (PyVal.digit_of c); lia.
Qed.

(** The digits of a positive number are read back as the number. *)
Lemma int_of_ascii_pos (p : positive) :
  PyVal.int_of_ascii (NilEmpty.string_of_uint (Pos.to_uint p)) = Some (Z.pos p).
Proof.
  pose proof (DecimalPos.Unsigned.to_uint_nonnil p) as Hnil.
  pose proof (DecimalPos.Unsigned.of_to p) as Hback.
  pose proof (int_digits_uint (Pos.to_uint p) PyVal.Nothing (or_introl Hnil)) as Hscan.
  rewrite Hback in Hscan.
  destruct (Pos.to_uint p) as [| d | d | d | d | d | d | d | d | d | d]; done.
Qed.

(** [int(str(n)) == n] on the modelled strings. *)
Lemma int_of_ascii_str (n : Z) : PyVal.int_of_ascii (str_of_int n) = Some n.
Proof.
  unfold str_of_int. destruct n as [| p | p]; [done | ..];
    cbn [Z.to_int NilZero.string_of_int]; unfold NilZero.string_of_uint;
    pose proof (DecimalPos.Unsigned.to_uint_nonnil p) as Hnil;
    pose proof (int_of_ascii_pos p) as Hpos.
  - by destruct (Pos.to_uint p).
  - pose proof (DecimalPos.Unsigned.of_to p) as Hback.
    pose proof (int_digits_uint (Pos.to_uint p) PyVal.Nothing (or_introl Hnil)) as Hscan.
    rewrite Hback in Hscan.
    assert (Hsame : (match Pos.to_uint p with
                     | Nil => "0"
                     | _ => NilEmpty.string_of_uint (Pos.to_uint p)
                     end) = NilEmpty.string_of_uint (Pos.to_uint p))
      by (by destruct (Pos.to_uint p)).
    rewrite Hsame. unfold PyVal.int_of_ascii. cbn [PyVal.lstrip].
    change (PyVal.is_space "-") with false. cbv iota. by rewrite Hscan.
Qed.

Lemma is_ascii_str (n : Z) : PyVal.is_ascii (str_of_int n) = true.
Proof.
  unfold str_of_int. destruct n as [| p | p]; [done | ..];
    cbn [Z.to_int NilZero.string_of_int]; unfold NilZero.string_of_uint;
    pose proof (is_ascii_uint (Pos.to_uint p)) as Hascii.
  - by destruct (Pos.to_uint p).
  - cbn [PyVal.is_ascii]. by destruct (Pos.to_uint p).
Qed.

Lemma int_of_str_str_of_int (int_beyond : string -> option Z) (n : Z) :
  (String.length (str_of_int n) <= 640)%nat ->
  PyVal.int_of_str int_beyond (str_of_int n) = Some n.
Proof.
  intros Hlen. unfold PyVal.int_of_str, PyVal.plain_literal.
  rewrite is_ascii_str. pose proof (count_digits_length (str_of_int n)).
  rewrite (proj2 (Nat.leb_le _ _)) by lia. apply int_of_ascii_str.
Qed.

(** [int(f)] cuts off the fraction of a finite float. *)
Lemma int_of_float_truncates (s : bool) (m : positive) (e : Z) :
  exists q : Z,
    PyVal.int_of_float (S754_finite s m e) = Some (if s then - q else q) /\
    if 0 <=? e then q = Z.pos m * 2 ^ e
    else q * 2 ^ (- e) <= Z.pos m < (q + 1) * 2 ^ (- e).
Proof.
  exists (if 0 <=? e then Z.pos m * 2 ^ e else Z.pos m / 2 ^ (- e)).
  split; [done |]. destruct (Z.leb_spec 0 e) as [Hpos | Hneg]; [done |].
  assert (Hpow : 0 < 2 ^ (- e)) by (apply Z.pow_pos_nonneg; lia).
  pose proof (Z.mul_div_le (Z.pos m) _ Hpow).
  pose proof (Z.mul_succ_div_gt (Z.pos m) _ Hpow). lia.
Qed.

End Coercion.

(** ** Upload *)

Section Upload.

Variable bytes_decode : list byte -> option string.
Variable json_loads : string -> option json.
Variable b64decode : list byte -> option (list byte).
Variable int_beyond : string -> option Z.

Let parse_payload' := parse_payload bytes_decode json_loads.
Let decode_file' := decode_file b64decode.
Let upload' := upload bytes_decode json_loads b64decode int_beyond.
Let read_fields' := read_fields int_beyond.

(** The four ways through [upload]. *)
Lemma upload_run (request : Request) (db : Database) :
  upload' request db =
    match parse_payload' request with
    | None => (Raise (HttpExn (BadRequestError "request.data is not json")), db)
    | Some dejson =>
        match decode_file' dejson with
        | None => (Raise (HttpExn (BadRequestError "cannot decode base64 file")), db)
        | Some media =>
            match read_fields' dejson with
            | None => (Raise (HttpExn (BadRequestError (wrong_format request))), db)
            | Some (media_id, mimetype) =>
                (Return upload_done, <[media_id := (media, mimetype)]> db)
            end
        end
    end.
Proof.
  unfold upload', upload. rewrite handle_general_errors_run.
  unfold upload_view, mbind, M_bind, try_except.
  fold parse_payload' decode_file' read_fields'.
  destruct (parse_payload' request) as [dejson |]; [| done]. simpl.
  destruct (decode_file' dejson) as [media |]; [| done]. simpl.
  destruct (read_fields' dejson) as [[media_id mimetype] |]; done.
Qed.

(** [upload] raises nothing but bad-request errors, and leaves the
    database alone when it raises. *)
Lemma upload_raises_bad_request (request : Request) (db db' : Database) (e : exn) :
  upload' request db = (Raise e, db') ->
  db' = db /\ exists msg : string, e = HttpExn (BadRequestError msg).
Proof.
  rewrite upload_run.
  destruct (parse_payload' request) as [dejson |]; [| intros [= <- <-]; eauto].
  destruct (decode_file' dejson) as [media |]; [| intros [= <- <-]; eauto].
  destruct (read_fields' dejson) as [[media_id mimetype] |]; [done |].
  intros [= <- <-]; eauto.
Qed.

(** The third stage fails exactly when [id] is missing or does not
    coerce to an integer, or [mimetype] is missing. *)
Lemma read_fields_None (dejson : json) :
  read_fields' dejson = None <->
  PyVal.getitem dejson "id" = None \/
  (exists id, PyVal.getitem dejson "id" = Some id /\ PyVal.int int_beyond id = None) \/
  PyVal.getitem dejson "mimetype" = None.
Proof.
  unfold read_fields', read_fields.
  destruct (PyVal.getitem dejson "id") as [id |]; simpl; [| by split; auto].
  destruct (PyVal.int int_beyond id) as [media_id |] eqn:Hint; simpl.
  - destruct (PyVal.getitem dejson "mimetype"); simpl.
    + split; [done |]. intros [? | [(id' & ? & ?) | ?]]; congruence.
    + split; auto.
  - split; [| done]. intros _. right; left. eauto.
Qed.


(** The three diagnostics differ from one another. *)
Lemma upload_messages_distinct (request : Request) :
  "request.data is not json" <> "cannot decode base64 file" /\
  "request.data is not json" <> wrong_format request /\
  "cannot decode base64 file" <> wrong_format request.
Proof. unfold wrong_format. repeat split; discriminate. Qed.

(** C4 (amended).  [upload] validates its payload in three ordered
    stages, each failing with a bad-request error of its own: a
    payload that does not parse fails with "request.data is not
    json"; a parsed payload whose [file] is missing, is not a string
    or is rejected by the base64 decoder of Python fails with "cannot
    decode base64 file"; a payload that passed these two stages and whose
    [id] is missing or does not coerce to an integer, or whose
    [mimetype] is missing, fails with the wrong-format message, which
    ends with the request data as Python prints them. *)
Theorem upload_validation_stages (request : Request) (db : Database) :
  (parse_payload' request = None ->
   dispatch (upload' request) db
     = (error_envelope 400 "request.data is not json", db)) /\
  (forall dejson : json,
      parse_payload' request = Some dejson ->
      decode_file' dejson = None ->
      dispatch (upload' request) db
        = (error_envelope 400 "cannot decode base64 file", db)) /\
  (forall (dejson : json) (media : list byte),
      parse_payload' request = Some dejson ->
      decode_file' dejson = Some media ->
      PyVal.getitem dejson "id" = None \/
      (exists id, PyVal.getitem dejson "id" = Some id /\ PyVal.int int_beyond id = None) \/
      PyVal.getitem dejson "mimetype" = None ->
      dispatch (upload' request) db
        = (error_envelope 400
             ("The post request.data is not in right format: "
                +:+ PyBytes.repr (data request)), db)).
Proof.
  rewrite dispatch_run, upload_run. repeat split.
  - by intros ->.
  - by intros dejson -> ->.
  - intros dejson media -> -> Hfields%read_fields_None. by rewrite Hfields.
Qed.

(** What the successive uploads of one request leave in the database. *)
Lemma upload_again (request : Request) (db : Database) :
  (dispatch (upload' request) (dispatch (upload' request) db).2).2
  = (dispatch (upload' request) db).2.
Proof.
  rewrite !dispatch_run, !upload_run.
  destruct (parse_payload' request) as [dejson |]; [| done].
  destruct (decode_file' dejson) as [media |]; [| done].
  destruct (read_fields' dejson) as [[media_id mimetype] |]; [| done].
  simpl. apply insert_insert_eq.
Qed.

(** C6.  Uploading the same request [N >= 1] times leaves the database
    as one upload does; if the request is accepted, the database then
    holds the uploaded bytes and mimetype for the identifier, whatever
    it held before. *)
Theorem upload_idempotent (request : Request) (db : Database) (N : nat) :
  (1 <= N)%nat ->
  Nat.iter N (fun db => (dispatch (upload' request) db).2) db
    = (dispatch (upload' request) db).2 /\
  (forall (dejson : json) (media : list byte) (media_id : Z) (mimetype : json),
      parse_payload' request = Some dejson ->
      decode_file' dejson = Some media ->
      read_fields' dejson = Some (media_id, mimetype) ->
      Nat.iter N (fun db => (dispatch (upload' request) db).2) db
        = <[media_id := (media, mimetype)]> db /\
      Nat.iter N (fun db => (dispatch (upload' request) db).2) db !! media_id
        = Some (media, mimetype)).
Proof.
  intros HN.
  assert (Hiter : Nat.iter N (fun db => (dispatch (upload' request) db).2) db
                  = (dispatch (upload' request) db).2).
  { destruct N as [| N]; [lia |]. clear HN.
    induction N as [| N IH]; [done |].
    rewrite Nat.iter_succ, IH. apply upload_again. }
  split; [done |].
  intros dejson media media_id mimetype Hparse Hfile Hfields.
  rewrite Hiter, dispatch_run, upload_run, Hparse, Hfile, Hfields. simpl.
  split; [done | apply lookup_insert_eq].
Qed.

(** C10.  [upload] asks of [id] only that [int] accepts it: a payload
    whose [file] decodes, whose [mimetype] is present and whose [id]
    coerces to the integer [media_id] is accepted and stored under
    [media_id].  [int] accepts every integer, negative ones too, the
    decimal text of every integer, and every finite float, whose
    fraction it cuts off. *)
Theorem upload_coerced_id (request : Request) (db : Database)
    (items : list (string * json)) (text : string) (media : list byte)
    (id mimetype : json) (media_id : Z) :
  parse_payload' request = Some (JDict items) ->
  PyVal.assoc "file" items = Some (JStr text) ->
  b64decode (PyStr.encode text) = Some media ->
  PyVal.assoc "id" items = Some id ->
  PyVal.int int_beyond id = Some media_id ->
  PyVal.assoc "mimetype" items = Some mimetype ->
  dispatch (upload' request) db
    = (upload_done, <[media_id := (media, mimetype)]> db) /\
  status upload_done = 200 /\
  (forall n : Z, PyVal.int int_beyond (JInt n) = Some n) /\
  (forall n : Z,
      (String.length (str_of_int n) <= 640)%nat ->
      PyVal.int int_beyond (JStr (str_of_int n)) = Some n) /\
  (forall (s : bool) (m : positive) (e : Z),
      exists q : Z,
        PyVal.int int_beyond (JFloat (S754_finite s m e))
          = Some (if s then - q else q) /\
        if 0 <=? e then q = Z.pos m * 2 ^ e
        else q * 2 ^ (- e) <= Z.pos m < (q + 1) * 2 ^ (- e)) /\
  PyVal.int int_beyond (JStr "-5") = Some (-5) /\
  PyVal.int int_beyond (JFloat Sample.f3_7) = Some 3.
Proof.
  intros Hparse Hfile Hmedia Hid Hint Hmime.
  rewrite dispatch_run, upload_run, Hparse.
  unfold decode_file', decode_file, read_fields', read_fields. simpl.
  rewrite Hfile. simpl. rewrite Hmedia, Hid. simpl. rewrite Hint. simpl.
  rewrite Hmime. simpl. repeat split; try done.
  - intros n Hlen. by apply int_of_str_str_of_int.
  - intros s m e. apply int_of_float_truncates.
Qed.

End Upload.

(** ** Upload followed by retrieval *)

Section RoundTrip.

Variable check_mediafile_id :
  Z -> gmap string string -> outcome (bool * string * option string).
Variables (AUTH_HEADER : string) (BLOCK_SIZE : Z).
Variables (default_message : string) (missing_message : Z -> string).
Variable bytes_decode : list byte -> option string.
Variable json_loads : string -> option json.
Variable b64decode : list byte -> option (list byte).
Variable int_beyond : string -> option Z.

Let serve' := serve check_mediafile_id AUTH_HEADER BLOCK_SIZE default_message missing_message.
Let upload' := upload bytes_decode json_loads b64decode int_beyond.
Let read_fields' := read_fields int_beyond.

(** C5 (amended).  If the payload [{id, mimetype, file}] carries the
    base64 text of the bytes [B] in [file], a string without line break
    in [mimetype] and an [id] that reads as [media_id], the upload is
    accepted, and a later retrieval of [media_id] that the presenter
    check grants, with a file name and a credential without line break,
    yields a response whose content type is the uploaded mimetype and
    whose chunks, joined in order, are [B].  The configured block size
    is positive, and decoding undoes the encoding of [B]. *)
Theorem upload_then_serve_round_trip (B : list byte) (media_id : Z) (mime : string)
    (b64encode : list byte -> list byte) (posted fetched : Request) (db : Database)
    (items : list (string * json)) (id : json) (text filename : string)
    (auth_header : option string) :
  0 < BLOCK_SIZE ->
  b64decode (b64encode B) = Some B ->
  parse_payload bytes_decode json_loads posted = Some (JDict items) ->
  PyVal.assoc "id" items = Some id ->
  PyVal.int int_beyond id = Some media_id ->
  PyVal.assoc "mimetype" items = Some (JStr mime) ->
  PyVal.assoc "file" items = Some (JStr text) ->
  PyStr.encode text = b64encode B ->
  check_mediafile_id media_id (presenter_headers (request_headers fetched))
    = Return (true, filename, auth_header) ->
  Headers.has_line_break mime = false ->
  Headers.has_line_break filename = false ->
  Headers.has_line_break (default "" auth_header) = false ->
  exists (db1 : Database) (response : Response) (chunks : list (list byte)),
    dispatch (upload' posted) db = (upload_done, db1) /\
    dispatch (serve' fetched media_id) db1 = (response, db1) /\
    status response = 200 /\
    mimetype response = JStr mime /\
    body response = Stream (Some chunks) /\
    concat chunks = B.
Proof.
  intros Hsize Hinv Hparse Hid Hint Hmime Hfile Htext Hcheck Hm Hname Hcred.
  destruct (chunked_concat BLOCK_SIZE B Hsize) as (chunks & Hchunks & Hjoin).
  pose proof (serve_response_run AUTH_HEADER BLOCK_SIZE filename auth_header B
                (JStr mime)) as Hbuilt.
  cbn [response_mimetype] in Hbuilt. rewrite Hm, Hname, Hcred in Hbuilt.
  cbv zeta in Hbuilt.
  eexists (<[media_id := (B, JStr mime)]> db), _, chunks.
  split.
  - rewrite dispatch_run. unfold upload'. rewrite upload_run, Hparse.
    unfold decode_file, read_fields. simpl.
    rewrite Hfile. simpl. rewrite Htext, Hinv, Hid. simpl.
    rewrite Hint. simpl. by rewrite Hmime.
  - split.
    + rewrite dispatch_run. unfold serve'. rewrite serve_run, Hcheck.
      rewrite lookup_insert_eq, Hbuilt. reflexivity.
    + simpl. by rewrite Hchunks.
Qed.

End RoundTrip.

(** ** The error envelope *)

(** C8.  A typed failure raised by a view ([serve] and [upload] among
    them) reaches the caller as the JSON object with [success] false and
    the message of the failure, sent with the status code of the
    failure: 404 for the not-found kind, 400 for the bad-request kind. *)
Theorem typed_failure_envelope (view : M Response) (db db' : Database)
    (error : HttpError) :
  handle_general_errors view db = (Raise (HttpExn error), db') ->
  dispatch (handle_general_errors view) db = (handle_view_error error, db') /\
  handle_view_error error =
    {| status := status_code error;
       mimetype := JStr "application/json";
       headers := [];
       body := Json (JDict [("success", JBool false);
                            ("message", JStr (message error))]) |} /\
  (forall msg : string,
      status_code (NotFoundError msg) = 404 /\ message (NotFoundError msg) = msg) /\
  (forall msg : string,
      status_code (BadRequestError msg) = 400 /\ message (BadRequestError msg) = msg).
Proof.
  intros Hraise. unfold dispatch. rewrite Hraise. done.
Qed.

(** ** Denial and absence *)


(** ** Sample runs *)



Lemma upload_validation_stages_witness :
  dispatch (Cases.upload (Sample.post Cases.text_no_id_lf)) ∅
  = (error_envelope 400
       ("The post request.data is not in right format: "
          +:+ PyBytes.repr (PyStr.encode Cases.text_no_id_lf)), ∅).
Proof.
  apply (proj2 (proj2 (upload_validation_stages Sample.bytes_decode
           Cases.json_loads Base64.decode Sample.int_beyond
           (Sample.post Cases.text_no_id_lf) ∅))
           (Sample.payload_no_id Sample.blob_text) Sample.blob).
  - reflexivity.
  - reflexivity.
  - left. reflexivity.
Defined.

(** No character of the base64 alphabet is an exclamation mark. *)
Lemma b2a_not_a_mark (v : Z) : Base64.b2a v <> x21%byte.
Proof.
  unfold Base64.b2a.
  destruct (nth_in_or_default (Z.to_nat v) Base64.alphabet Base64.pad) as [Hin | ->];
    [| discriminate].
  revert Hin. generalize (nth (Z.to_nat v) Base64.alphabet Base64.pad). intros c.
  unfold Base64.alphabet. cbn [PyStr.encode list_byte_of_string In].
  intros Hin.
  repeat (destruct Hin as [<- | Hin]; [discriminate |]). done.
Qed.

(** Four exclamation marks are the base64 text of no bytes. *)
Lemma marks_not_base64 (bs : list byte) : Base64.encode bs <> PyStr.encode "!!!!".
Proof.
  destruct bs as [| a [| b [| c rest]]]; cbn [Base64.encode]; unfold Base64.quad;
    cbn [take app]; try discriminate.
  intros [= Hfirst _]. by apply b2a_not_a_mark in Hfirst.
Qed.

(** C4, as stated, fails in three places.  The payload [{}] has no
    [id], and the upload is refused at the second stage, with the
    base64 message and not with the wrong-format message.  A [file] of
    four exclamation marks is no base64 text, yet the decoder of Python
    skips the marks and the upload is accepted, with no bytes.  A
    payload with a line feed that fails at the third stage gets a
    message in which the line feed is written as an escape, so that the
    raw data are not part of it. *)
Lemma upload_validation_counterexamples :
  (let request := Sample.post "{}" in
   parse_payload Sample.bytes_decode Cases.json_loads request = Some (JDict []) /\
   PyVal.getitem (JDict []) "id" = None /\
   dispatch (Cases.upload request) ∅
     = (error_envelope 400 "cannot decode base64 file", ∅) /\
   dispatch (Cases.upload request) ∅
     <> (error_envelope 400 (wrong_format request), ∅)) /\
  (let request := Sample.post Cases.text_marks in
   (forall bs, Base64.encode bs <> PyStr.encode "!!!!") /\
   dispatch (Cases.upload request) ∅
     = (upload_done, {[ 42 := ([], JStr "image/png") ]})) /\
  (let request := Sample.post Cases.text_no_id_lf in
   dispatch (Cases.upload request) ∅
     = (error_envelope 400 (wrong_format request), ∅) /\
   PyStr.contains (string_of_list_byte (data request)) (wrong_format request)
     = false).
Proof.
  split; [| split].
  - repeat split; try reflexivity. vm_compute. discriminate.
  - split; [apply marks_not_base64 | reflexivity].
  - split; [reflexivity | vm_compute; reflexivity].
Qed.

Lemma upload_idempotent_witness :
  let again := fun db : Database =>
    (dispatch (Cases.upload (Sample.post Sample.text_42)) db).2 in
  (1 <= 3)%nat /\
  again (again (again ∅)) = again ∅ /\
  again (again (again ∅)) !! 42 = Some (Sample.blob, JStr "image/png").
Proof.
  split; [lia |].
  destruct (upload_idempotent Sample.bytes_decode Cases.json_loads
              Base64.decode Sample.int_beyond (Sample.post Sample.text_42) ∅ 3
              ltac:(lia))
    as [Honce Hstored].
  split; [exact Honce |].
  apply (Hstored (Sample.payload (JInt 42) Sample.blob_text) Sample.blob 42
           (JStr "image/png")); reflexivity.
Defined.

Lemma upload_coerced_id_witness :
  dispatch (Sample.upload_of Sample.text_minus_5 (Sample.payload (JStr "-5") Sample.blob_text)
              (Sample.post Sample.text_minus_5)) Sample.stored
  = (upload_done, <[ -5 := (Sample.blob, JStr "image/png") ]> Sample.stored).
Proof.
  apply (upload_coerced_id Sample.bytes_decode
           (Sample.json_loads [(Sample.text_minus_5, Sample.payload (JStr "-5") Sample.blob_text)])
           Base64.decode Sample.int_beyond (Sample.post Sample.text_minus_5) Sample.stored
           [("id", JStr "-5"); ("mimetype", JStr "image/png"); ("file", JStr Sample.blob_text)]
           Sample.blob_text Sample.blob (JStr "-5") (JStr "image/png") (-5));
    reflexivity.
Defined.

Lemma upload_then_serve_round_trip_witness :
  exists (db1 : Database) (response : Response) (chunks : list (list byte)),
    dispatch (Cases.upload (Sample.post Sample.text_42)) ∅ = (upload_done, db1) /\
    dispatch (Sample.serve_granted (Sample.get "42") 42) db1 = (response, db1) /\
    status response = 200 /\
    mimetype response = JStr "image/png" /\
    body response = Stream (Some chunks) /\
    concat chunks = Sample.blob.
Proof.
  apply (upload_then_serve_round_trip Sample.grant Sample.AUTH_HEADER Sample.BLOCK_SIZE
           Sample.default_message Sample.missing_message Sample.bytes_decode
           Cases.json_loads Base64.decode Sample.int_beyond Sample.blob 42
           "image/png" Base64.encode
           (Sample.post Sample.text_42) (Sample.get "42") ∅
           [("id", JInt 42); ("mimetype", JStr "image/png"); ("file", JStr Sample.blob_text)]
           (JInt 42) Sample.blob_text "logo.png" (Some "token-1"));
    reflexivity.
Defined.

(** C5, as stated, fails where a header cannot be set or the block size
    is not positive.  After an accepted upload, a retrieval that the
    presenter check grants is answered with status 500 if the file name
    or the credential of the check has a line break; so is the
    retrieval of a blob uploaded with a mimetype that has a line break;
    and with a negative block size the retrieval is answered with
    status 200 and no chunk. *)
Lemma round_trip_counterexamples :
  let db1 := {[ 42 := (Sample.blob, JStr "image/png") ]} : Database in
  let db2 := {[ 42 := (Sample.blob, JStr Cases.two_lines) ]} : Database in
  let fetch check block_size db :=
    (dispatch (Cases.serve check block_size (Sample.get "42") 42) db).1 in
  dispatch (Cases.upload (Sample.post Sample.text_42)) ∅ = (upload_done, db1) /\
  status (fetch (Cases.grant_with Cases.two_lines None) 2 db1) = 500 /\
  status (fetch (Cases.grant_with "logo.png" (Some Cases.two_lines)) 2 db1) = 500 /\
  dispatch (Cases.upload (Sample.post Cases.text_two_lines)) ∅ = (upload_done, db2) /\
  status (fetch Sample.grant 2 db2) = 500 /\
  status (fetch Sample.grant (-2) db1) = 200 /\
  body (fetch Sample.grant (-2) db1) = Stream (Some []) /\
  concat (@nil (list byte)) <> Sample.blob.
Proof. repeat split; try reflexivity. discriminate. Qed.

Lemma typed_failure_envelope_witness :
  let view := upload_view Sample.bytes_decode (Sample.json_loads []) Base64.decode
                Sample.int_beyond (Sample.post "no json") in
  let error := BadRequestError "request.data is not json" in
  dispatch (handle_general_errors view) Sample.stored
    = (handle_view_error error, Sample.stored) /\
  status (handle_view_error error) = 400.
Proof.
  intros view error.
  destruct (typed_failure_envelope view Sample.stored Sample.stored error)
    as (Hsent & -> & _).
  - reflexivity.
  - split; [exact Hsent | reflexivity].
Defined.

(** * Further properties of the views *)

(** ** The header filter *)

Lemma del_items_foldl (keys : list string) (d : gmap string string) :
  NoDup keys -> (forall key, key ∈ keys -> is_Some (d !! key)) ->
  del_items keys d = Some (foldl (fun d key => delete key d) d keys).
Proof.
  revert d. induction keys as [| key keys IH]; intros d Hnodup Hin; [done |].
  apply NoDup_cons in Hnodup as [Hfresh Hnodup].
  cbn [del_items foldl]. unfold del_item.
  destruct (Hin key ltac:(left)) as [v ->]. simpl.
  apply IH; [done |]. intros key' Hkey'.
  rewrite lookup_delete_ne by (intros ->; done).
  apply Hin. by right.
Qed.

(** X1.  The dictionary handed to the presenter check holds, under each
    name, what the dictionary of the request headers holds, unless the
    name contains the text "content" exactly as written, in which case
    it holds nothing. *)
Theorem presenter_headers_lookup (hs : list (string * string)) (key : string) :
  presenter_headers hs !! key =
    if PyStr.contains "content" key then None else py_dict hs !! key.
Proof.
  rewrite presenter_headers_filter.
  destruct (PyStr.contains "content" key) eqn:Hc.
  - apply map_lookup_filter_None. right. intros v _. simpl. congruence.
  - destruct (py_dict hs !! key) as [v |] eqn:Hkey.
    + by apply map_lookup_filter_Some.
    + apply map_lookup_filter_None. by left.
Qed.

(** X2.  The deletion loop of [serve] never raises [KeyError]: every
    key of [del_keys] is in the dictionary when its turn comes, and the
    loop ends with the dictionary that is handed to the presenter
    check. *)
Theorem del_keys_loop_succeeds (hs : list (string * string)) :
  del_items (del_keys (py_dict hs)) (py_dict hs) = Some (presenter_headers hs).
Proof.
  unfold presenter_headers. apply del_items_foldl.
  - unfold del_keys, dict_keys.
    apply NoDup_ListNoDup, List.NoDup_filter, NoDup_ListNoDup, NoDup_fst_map_to_list.
  - intros key Hkey. by apply elem_of_del_keys in Hkey as [_ ?].
Qed.

(** ** The chunks *)

Lemma chunked_exact (size : Z) (source : list byte) :
  0 < size ->
  chunked size source =
    Some (map (fun k => take (Z.to_nat size) (drop (k * Z.to_nat size)%nat source))
              (seq 0 (Z.to_nat ((Z.of_nat (length source) + size - 1) / size)))).
Proof.
  intros Hs. unfold chunked, PySeq.range.
  destruct (Z.eqb_spec size 0) as [| _]; [lia |].
  destruct (Z.ltb_spec 0 size) as [_ |]; [| lia].
  set (n := Z.of_nat (length source)).
  assert (Hcount : (if 0 <? n then (n - 0 - 1) / size + 1 else 0)
                   = (n + size - 1) / size).
  { destruct (Z.ltb_spec 0 n) as [Hpos | Hzero].
    - replace (n + size - 1) with (n - 0 - 1 + 1 * size) by lia.
      rewrite Z.div_add by lia. done.
    - replace n with 0 by lia. rewrite Z.div_small; lia. }
  rewrite Hcount. simpl. f_equal. rewrite map_map. apply map_ext. intros k.
  rewrite slice_take_drop by lia. do 2 f_equal.
  rewrite Z.add_0_l, Z2Nat.inj_mul, Nat2Z.id by lia. done.
Qed.

(** X3.  For a positive size, [chunked] yields as many chunks as the
    length divided by the size, rounded up; the chunk of index [k] holds
    the bytes from offset [k * size] on, is never empty, and has exactly
    [size] bytes unless it is the last one. *)
Theorem chunked_sizes (size : Z) (source : list byte) (chunks : list (list byte)) :
  0 < size ->
  chunked size source = Some chunks ->
  Z.of_nat (length chunks) = (Z.of_nat (length source) + size - 1) / size /\
  forall (k : nat) (chunk : list byte),
    chunks !! k = Some chunk ->
    chunk = take (Z.to_nat size) (drop (k * Z.to_nat size) source) /\
    0 < Z.of_nat (length chunk) <= size /\
    ((S k < length chunks)%nat -> Z.of_nat (length chunk) = size).
Proof.
  intros Hs. rewrite chunked_exact by done. intros [= <-].
  set (n := Z.of_nat (length source)).
  set (count := (n + size - 1) / size).
  assert (Hcount : 0 <= count) by (apply Z.div_pos; lia).
  assert (Hlow : (count - 1) * size <= n - 1).
  { pose proof (Z.mul_div_le (n + size - 1) size Hs). fold count in H. lia. }
  rewrite length_map, length_seq. split; [lia |].
  intros k chunk Hk.
  apply list_lookup_fmap_Some in Hk as (k' & -> & Hk').
  apply lookup_seq in Hk' as [-> Hlt]. simpl.
  split; [done |].
  rewrite length_take, length_drop.
  assert (Hoff : Z.of_nat (k * Z.to_nat size) = Z.of_nat k * size) by lia.
  assert (Hk1 : Z.of_nat k + 1 <= count) by lia.
  split; [nia |]. intros Hnext.
  assert (Hk2 : Z.of_nat k + 2 <= count) by lia. nia.
Qed.

Lemma chunked_sizes_witness :
  Z.of_nat (length [[x01; x02]; [x03; x04]; [x05]]%byte) = (5 + 2 - 1) / 2 /\
  forall (k : nat) (chunk : list byte),
    [[x01; x02]; [x03; x04]; [x05]]%byte !! k = Some chunk ->
    chunk = take 2 (drop (k * 2) Sample.blob) /\
    0 < Z.of_nat (length chunk) <= 2 /\
    ((S k < 3)%nat -> Z.of_nat (length chunk) = 2).
Proof.
  apply (chunked_sizes 2 Sample.blob [[x01; x02]; [x03; x04]; [x05]]%byte).
  - lia.
  - reflexivity.
Defined.

(** X4.  A block size that is not positive loses the data: with the
    size zero the generator raises as soon as it is run, with a
    negative size it yields no chunk at all, whatever the source. *)
Theorem chunked_nonpositive (size : Z) (source : list byte) :
  size <= 0 ->
  chunked size source = if size =? 0 then None else Some [].
Proof.
  intros Hs. unfold chunked, PySeq.range.
  destruct (Z.eqb_spec size 0) as [| Hne]; [done |].
  destruct (Z.ltb_spec 0 size) as [| _]; [lia |].
  destruct (Z.ltb_spec (Z.of_nat (length source)) 0) as [| _]; [lia |].
  reflexivity.
Qed.

Lemma chunked_nonpositive_witness :
  chunked (-2) Sample.blob = Some [] /\ chunked 0 Sample.blob = None.
Proof.
  split.
  - apply (chunked_nonpositive (-2) Sample.blob). lia.
  - apply (chunked_nonpositive 0 Sample.blob). lia.
Defined.

(** ** The ways through [serve] *)

Section RetrievalCases.

Variable check_mediafile_id :
  Z -> gmap string string -> outcome (bool * string * option string).
Variables (AUTH_HEADER : string) (BLOCK_SIZE : Z).
Variables (default_message : string) (missing_message : Z -> string).

Let serve' := serve check_mediafile_id AUTH_HEADER BLOCK_SIZE default_message missing_message.

(** X5.  When the presenter check returns, the retrieval is answered
    with status 404 if the check denies access or the database holds no
    blob for the identifier; otherwise with status 200 if the response
    can be built (the stored mimetype is a string or missing, and
    neither it nor the file name nor the credential of the check has a
    line break), and with status 500 if it cannot. *)
Theorem serve_status (request : Request) (mediafile_id : Z) (db : Database)
    (ok : bool) (filename : string) (auth_header : option string) :
  check_mediafile_id mediafile_id (presenter_headers (request_headers request))
    = Return (ok, filename, auth_header) ->
  status (dispatch (serve' request mediafile_id) db).1 =
    if ok then
      match db !! mediafile_id with
      | None => 404
      | Some (_, mimetype) =>
          match response_mimetype mimetype with
          | None => 500
          | Some _ =>
              if Headers.has_line_break filename
                 || Headers.has_line_break (default "" auth_header)
              then 500 else 200
          end
      end
    else 404.
Proof.
  intros Hcheck. rewrite dispatch_run. unfold serve'. rewrite serve_run, Hcheck.
  destruct ok; [| done].
  destruct (db !! mediafile_id) as [[data mt] |] eqn:Hblob; [| done].
  rewrite serve_response_run.
  destruct (response_mimetype mt) as [m |]; [| done].
  destruct (Headers.has_line_break filename); [done |].
  by destruct (Headers.has_line_break (default "" auth_header)).
Qed.

(** X6.  A denial is answered before the database is looked at: the
    response is the 404 envelope with the message of [NotFoundError()],
    the same whether or not a blob is stored for the identifier. *)
Theorem serve_denied_any_database (request : Request) (mediafile_id : Z)
    (filename : string) (auth_header : option string) :
  check_mediafile_id mediafile_id (presenter_headers (request_headers request))
    = Return (false, filename, auth_header) ->
  forall db : Database,
    dispatch (serve' request mediafile_id) db
      = (error_envelope 404 default_message, db).
Proof.
  intros Hcheck db. rewrite dispatch_run. unfold serve'.
  by rewrite serve_run, Hcheck.
Qed.

(** X7.  An exception of the presenter check leaves [serve] as it is:
    the database is not looked at, an [HttpError] is answered with its
    own status code and message, any other exception with status 500. *)
Theorem serve_check_raises (request : Request) (mediafile_id : Z) (db : Database)
    (e : exn) :
  check_mediafile_id mediafile_id (presenter_headers (request_headers request))
    = Raise e ->
  serve' request mediafile_id db = (Raise e, db) /\
  (dispatch (serve' request mediafile_id) db).2 = db /\
  match e with
  | HttpExn error =>
      (dispatch (serve' request mediafile_id) db).1
        = error_envelope (status_code error) (message error)
  | OtherExn _ => status (dispatch (serve' request mediafile_id) db).1 = 500
  end.
Proof.
  intros Hcheck. rewrite dispatch_run. unfold serve'. rewrite serve_run, Hcheck.
  by destruct e.
Qed.

End RetrievalCases.

Lemma serve_status_witness :
  status (dispatch (Sample.serve_granted (Sample.get "42") 42) Sample.stored).1 = 200 /\
  status (dispatch (Sample.serve_granted (Sample.get "7") 7) Sample.stored).1 = 404 /\
  status (dispatch (Cases.serve (Cases.grant_with Cases.two_lines None) 2
                      (Sample.get "42") 42) Sample.stored).1 = 500.
Proof.
  split; [| split].
  - apply (serve_status Sample.grant Sample.AUTH_HEADER Sample.BLOCK_SIZE
             Sample.default_message Sample.missing_message (Sample.get "42") 42
             Sample.stored true "logo.png" (Some "token-1")).
    reflexivity.
  - apply (serve_status Sample.grant Sample.AUTH_HEADER Sample.BLOCK_SIZE
             Sample.default_message Sample.missing_message (Sample.get "7") 7
             Sample.stored true "logo.png" (Some "token-1")).
    reflexivity.
  - apply (serve_status (Cases.grant_with Cases.two_lines None) Sample.AUTH_HEADER 2
             Sample.default_message Sample.missing_message (Sample.get "42") 42
             Sample.stored true Cases.two_lines None).
    reflexivity.
Defined.

Lemma serve_denied_any_database_witness :
  dispatch (Sample.serve_denied (Sample.get "42") 42) Sample.stored
    = (error_envelope 404 Sample.default_message, Sample.stored) /\
  dispatch (Sample.serve_denied (Sample.get "42") 42) ∅
    = (error_envelope 404 Sample.default_message, ∅).
Proof.
  split;
    apply (serve_denied_any_database Sample.deny Sample.AUTH_HEADER Sample.BLOCK_SIZE
             Sample.default_message Sample.missing_message (Sample.get "42") 42 "" None);
    reflexivity.
Defined.

Lemma serve_check_raises_witness :
  Cases.serve Cases.broken 2 (Sample.get "42") 42 Sample.stored
    = (Raise (OtherExn "ConnectionError"), Sample.stored) /\
  (dispatch (Cases.serve Cases.broken 2 (Sample.get "42") 42) Sample.stored).2
    = Sample.stored /\
  status (dispatch (Cases.serve Cases.broken 2 (Sample.get "42") 42) Sample.stored).1
    = 500.
Proof.
  apply (serve_check_raises Cases.broken Sample.AUTH_HEADER 2 Sample.default_message
           Sample.missing_message (Sample.get "42") 42 Sample.stored
           (OtherExn "ConnectionError")).
  reflexivity.
Defined.

(** ** The ways through [upload] *)

Section UploadCases.

Variable bytes_decode : list byte -> option string.
Variable json_loads : string -> option json.
Variable b64decode : list byte -> option (list byte).
Variable int_beyond : string -> option Z.

Let parse_payload' := parse_payload bytes_decode json_loads.
Let decode_file' := decode_file b64decode.
Let upload' := upload bytes_decode json_loads b64decode int_beyond.
Let read_fields' := read_fields int_beyond.

(** The database after an accepted upload. *)
Lemma upload_accepted (request : Request) (db : Database) (dejson : json)
    (media : list byte) (media_id : Z) (mimetype : json) :
  parse_payload' request = Some dejson ->
  decode_file' dejson = Some media ->
  read_fields' dejson = Some (media_id, mimetype) ->
  dispatch (upload' request) db = (upload_done, <[media_id := (media, mimetype)]> db).
Proof.
  intros Hparse Hfile Hfields. rewrite dispatch_run. unfold upload'.
  rewrite upload_run. fold parse_payload' decode_file' read_fields'.
  by rewrite Hparse, Hfile, Hfields.
Qed.

(** X8.  An upload has one of two outcomes: it is accepted, answered
    with status 200, and one entry of the database is written; or it is
    answered with the 400 envelope and one of three messages, and the
    database is left as it was. *)
Theorem upload_outcomes (request : Request) (db : Database) :
  (exists (media_id : Z) (media : list byte) (mimetype : json),
      dispatch (upload' request) db
        = (upload_done, <[media_id := (media, mimetype)]> db)) \/
  (exists msg : string,
      dispatch (upload' request) db = (error_envelope 400 msg, db) /\
      (msg = "request.data is not json" \/
       msg = "cannot decode base64 file" \/
       msg = wrong_format request)).
Proof.
  rewrite dispatch_run. unfold upload'. rewrite upload_run.
  destruct (parse_payload _ _ request) as [dejson |]; [| right; eauto].
  destruct (decode_file _ dejson) as [media |]; [| right; eauto 6].
  destruct (read_fields _ dejson) as [[media_id mimetype] |]; [| right; eauto 6].
  left. eauto.
Qed.

(** X9.  An upload writes under the identifier of its payload only:
    what the database holds under any other identifier is as before. *)
Theorem upload_other_ids (request : Request) (db : Database) (dejson : json)
    (media_id other : Z) (mimetype : json) :
  parse_payload' request = Some dejson ->
  read_fields' dejson = Some (media_id, mimetype) ->
  other <> media_id ->
  (dispatch (upload' request) db).2 !! other = db !! other.
Proof.
  intros Hparse Hfields Hother. rewrite dispatch_run. unfold upload'.
  rewrite upload_run. fold parse_payload' decode_file' read_fields'. rewrite Hparse.
  destruct (decode_file' dejson) as [media |]; [| done].
  rewrite Hfields. simpl. by rewrite lookup_insert_ne.
Qed.

(** X10.  Of two accepted uploads for one identifier the later one
    wins, as if the earlier one had not happened; two accepted uploads
    for different identifiers leave the same database in either
    order. *)
Theorem upload_twice (first second : Request) (db : Database)
    (dejson1 dejson2 : json) (media1 media2 : list byte) (id1 id2 : Z)
    (mimetype1 mimetype2 : json) :
  parse_payload' first = Some dejson1 ->
  decode_file' dejson1 = Some media1 ->
  read_fields' dejson1 = Some (id1, mimetype1) ->
  parse_payload' second = Some dejson2 ->
  decode_file' dejson2 = Some media2 ->
  read_fields' dejson2 = Some (id2, mimetype2) ->
  let run := fun request db => (dispatch (upload' request) db).2 in
  (id1 = id2 -> run second (run first db) = run second db) /\
  (id1 <> id2 -> run second (run first db) = run first (run second db)).
Proof.
  intros Hp1 Hf1 Hr1 Hp2 Hf2 Hr2 run. subst run. cbv beta.
  rewrite !(upload_accepted first _ dejson1 media1 id1 mimetype1) by done.
  rewrite !(upload_accepted second _ dejson2 media2 id2 mimetype2) by done.
  simpl. split.
  - intros ->. apply insert_insert_eq.
  - intros Hne. by apply insert_insert_ne.
Qed.

(** X11.  A payload that is JSON but not an object (a list, a string, a
    number, [true], [null]) is refused with the base64 message. *)
Theorem upload_not_an_object (request : Request) (db : Database) (dejson : json) :
  parse_payload' request = Some dejson ->
  (forall items, dejson <> JDict items) ->
  dispatch (upload' request) db
    = (error_envelope 400 "cannot decode base64 file", db).
Proof.
  intros Hparse Hshape. rewrite dispatch_run. unfold upload'.
  rewrite upload_run. fold parse_payload' read_fields'. rewrite Hparse.
  assert (decode_file b64decode dejson = None) as ->; [| done].
  unfold decode_file. destruct dejson; try done. by destruct (Hshape items).
Qed.


(** X13.  The wrong-format answer gives the request data back: when the
    data are printable ASCII without single quote and backslash, the
    message ends with them, verbatim, between [b'] and [']. *)
Theorem upload_wrong_format_echo (request : Request) (db : Database) (dejson : json)
    (media : list byte) :
  forallb PyBytes.plain (data request) = true ->
  parse_payload' request = Some dejson ->
  decode_file' dejson = Some media ->
  read_fields' dejson = None ->
  dispatch (upload' request) db
    = (error_envelope 400
         ("The post request.data is not in right format: b'"
            +:+ string_of_list_byte (data request) +:+ "'"), db).
Proof.
  intros Hplain Hparse Hfile Hfields. rewrite dispatch_run. unfold upload'.
  rewrite upload_run. fold parse_payload' decode_file' read_fields'.
  rewrite Hparse, Hfile, Hfields. unfold wrong_format.
  by rewrite repr_plain.
Qed.

End UploadCases.

Lemma upload_other_ids_witness :
  (dispatch (Cases.upload (Sample.post Cases.text_7)) Sample.stored).2 !! 42
  = Sample.stored !! 42.
Proof.
  apply (upload_other_ids Sample.bytes_decode Cases.json_loads Base64.decode Sample.int_beyond
           (Sample.post Cases.text_7) Sample.stored
           (Sample.payload (JInt 7) Cases.blob_text) 7 42 (JStr "image/png")).
  - reflexivity.
  - reflexivity.
  - lia.
Defined.

Lemma upload_twice_witness :
  let run := fun request db => (dispatch (Cases.upload request) db).2 in
  ((42 : Z) = 42 ->
   run (Sample.post Cases.text_42) (run (Sample.post Sample.text_42) ∅)
   = run (Sample.post Cases.text_42) ∅) /\
  ((7 : Z) <> 42 ->
   run (Sample.post Sample.text_42) (run (Sample.post Cases.text_7) ∅)
   = run (Sample.post Cases.text_7) (run (Sample.post Sample.text_42) ∅)).
Proof.
  split.
  - apply (upload_twice Sample.bytes_decode Cases.json_loads Base64.decode Sample.int_beyond
             (Sample.post Sample.text_42) (Sample.post Cases.text_42) ∅
             (Sample.payload (JInt 42) Sample.blob_text)
             (Sample.payload (JInt 42) Cases.blob_text)
             Sample.blob Cases.blob 42 42 (JStr "image/png") (JStr "image/png"));
      reflexivity.
  - apply (upload_twice Sample.bytes_decode Cases.json_loads Base64.decode Sample.int_beyond
             (Sample.post Cases.text_7) (Sample.post Sample.text_42) ∅
             (Sample.payload (JInt 7) Cases.blob_text)
             (Sample.payload (JInt 42) Sample.blob_text)
             Cases.blob Sample.blob 7 42 (JStr "image/png") (JStr "image/png"));
      reflexivity.
Defined.

Lemma upload_not_an_object_witness :
  dispatch (Cases.upload (Sample.post Cases.text_list)) Sample.stored
  = (error_envelope 400 "cannot decode base64 file", Sample.stored).
Proof.
  apply (upload_not_an_object Sample.bytes_decode Cases.json_loads Base64.decode Sample.int_beyond
           (Sample.post Cases.text_list) Sample.stored (JList [JInt 1; JInt 2])).
  - reflexivity.
  - discriminate.
Defined.


Lemma upload_wrong_format_echo_witness :
  dispatch (Cases.upload (Sample.post Cases.text_bad_id)) Sample.stored
  = (error_envelope 400
       ("The post request.data is not in right format: b'"
          +:+ Cases.text_bad_id +:+ "'"), Sample.stored).
Proof.
  apply (upload_wrong_format_echo Sample.bytes_decode Cases.json_loads Base64.decode Sample.int_beyond
           (Sample.post Cases.text_bad_id) Sample.stored
           (Sample.payload (JStr "x") Cases.blob_text) Cases.blob);
    reflexivity.
Defined.

(** ** Upload and retrieval of different identifiers *)

Section OtherIdentifiers.

Variable check_mediafile_id :
  Z -> gmap string string -> outcome (bool * string * option string).
Variables (AUTH_HEADER : string) (BLOCK_SIZE : Z).
Variables (default_message : string) (missing_message : Z -> string).
Variable bytes_decode : list byte -> option string.
Variable json_loads : string -> option json.
Variable b64decode : list byte -> option (list byte).
Variable int_beyond : string -> option Z.

Let serve' := serve check_mediafile_id AUTH_HEADER BLOCK_SIZE default_message missing_message.
Let upload' := upload bytes_decode json_loads b64decode int_beyond.
Let read_fields' := read_fields int_beyond.

(** X14.  An upload whose payload does not name the identifier [other]
    does not change how a retrieval of [other] is answered, whether the
    upload is accepted or refused. *)
Theorem upload_keeps_other_retrievals (posted fetched : Request) (other : Z)
    (db : Database) :
  (forall dejson mimetype,
      parse_payload bytes_decode json_loads posted = Some dejson ->
      read_fields' dejson <> Some (other, mimetype)) ->
  (dispatch (serve' fetched other) (dispatch (upload' posted) db).2).1
  = (dispatch (serve' fetched other) db).1.
Proof.
  intros Hother.
  set (db1 := (dispatch (upload' posted) db).2).
  assert (Hsame : db1 !! other = db !! other).
  { subst db1. rewrite dispatch_run. unfold upload'. rewrite upload_run.
    destruct (parse_payload _ _ posted) as [dejson |] eqn:Hparse; [| done].
    destruct (decode_file _ dejson) as [media |]; [| done].
    destruct (read_fields _ dejson) as [[media_id mimetype] |] eqn:Hfields; [| done].
    simpl. apply lookup_insert_ne. intros ->.
    by apply (Hother dejson mimetype). }
  clearbody db1. rewrite !dispatch_run. unfold serve'. rewrite !serve_run, Hsame.
  destruct (check_mediafile_id _ _) as [[[[] filename] auth_header] | [error | what]];
    try done.
  destruct (db !! other) as [[data mt] |]; [| done].
  by destruct (serve_response _ _ filename auth_header data mt).
Qed.

End OtherIdentifiers.

Lemma upload_keeps_other_retrievals_witness :
  (dispatch (Sample.serve_granted (Sample.get "42") 42)
     (dispatch (Cases.upload (Sample.post Cases.text_7)) Sample.stored).2).1
  = (dispatch (Sample.serve_granted (Sample.get "42") 42) Sample.stored).1.
Proof.
  apply (upload_keeps_other_retrievals Sample.grant Sample.AUTH_HEADER
           Sample.BLOCK_SIZE Sample.default_message Sample.missing_message
           Sample.bytes_decode Cases.json_loads Base64.decode Sample.int_beyond
           (Sample.post Cases.text_7) (Sample.get "42") 42 Sample.stored).
  intros dejson mimetype [= <-]. discriminate.
Defined.
